(** * Receipt rendering and batch export of the fee-tracking tool (app.py)

    A shallow embedding of the receipt pipeline of [app.py]: the record
    store normalisation ([ensure_columns], [load_students]), the receipt
    renderer ([build_receipt_pdf_bytes], [generate_single_pdf]), the
    combined batch renderer ([generate_bulk_one_pdf]) and the two
    batch handlers of the "Resit" tab.

    Effects are explicit: every function that reads the wall clock, writes
    a file or talks to the page runs in the monad [M], a state monad over
    [World] with Python exceptions as an error result. *)

From Stdlib Require Import ZArith NArith List Lia Ascii String DecimalString DecimalPos.
From Corelib Require Import SpecFloat.
From stdpp Require Import base option gmap strings list.
Import ListNotations.
Local Open Scope Z_scope.

(** ** Python strings *)

Module Str.

(** [str.replace(old, new)] for one-character [old] and [new]. *)
Fixpoint replace (old new : ascii) (s : string) : string :=
  match s with
  | EmptyString => EmptyString
  | String c s' =>
      String (if Ascii.eqb c old then new else c) (replace old new s')
  end.

Definition lower_char (c : ascii) : ascii :=
  let n := nat_of_ascii c in
  if ((65 <=? n)%nat && (n <=? 90)%nat)%bool then ascii_of_nat (n + 32) else c.

(** [str.lower()] on the ASCII range. *)
Fixpoint lower (s : string) : string :=
  match s with
  | EmptyString => EmptyString
  | String c s' => String (lower_char c) (lower s')
  end.

(** Truth value of a string: [if s] holds when [s] is not empty. *)
Definition truthy (s : string) : bool :=
  match s with EmptyString => false | String _ _ => true end.

Definition digit (n : Z) : ascii := ascii_of_N (Z.to_N (48 + n mod 10)).

Definition is_digit (c : ascii) : bool :=
  let n := nat_of_ascii c in ((48 <=? n)%nat && (n <=? 57)%nat)%bool.

(** Zero-padded decimal fields of [strftime]: [%m %d %H %M %S] print two
    digits, [%Y] prints four. *)
Definition pad2 (n : Z) : string :=
  String (digit (n / 10)) (String (digit n) EmptyString).

Definition pad4 (n : Z) : string :=
  String (digit (n / 1000)) (String (digit (n / 100)) (pad2 n)).

End Str.

(** ** The wall clock *)

(** A [datetime] value, to the second (no format used by the program
    prints anything finer). *)
Record datetime := mk_datetime {
  year : Z; month : Z; day : Z;
  hour : Z; minute : Z; second : Z
}.

(** The ranges Python's [datetime] type guarantees for a current time. *)
Definition valid_datetime (t : datetime) : Prop :=
  1000 <= year t <= 9999 /\ 1 <= month t <= 12 /\ 1 <= day t <= 31 /\
  0 <= hour t <= 23 /\ 0 <= minute t <= 59 /\ 0 <= second t <= 59.

(** [t.strftime('%Y-%m-%d')] *)
Definition strftime_Y_m_d (t : datetime) : string :=
  Str.pad4 (year t) +:+ "-" +:+ Str.pad2 (month t) +:+ "-" +:+ Str.pad2 (day t).

(** [t.strftime('%Y%m%d-%H%M%S')] *)
Definition strftime_Ymd_HMS (t : datetime) : string :=
  Str.pad4 (year t) +:+ Str.pad2 (month t) +:+ Str.pad2 (day t) +:+ "-" +:+
  Str.pad2 (hour t) +:+ Str.pad2 (minute t) +:+ Str.pad2 (second t).

(** [t.strftime('%Y%m%d_%H%M')] *)
Definition strftime_Ymd_HM (t : datetime) : string :=
  Str.pad4 (year t) +:+ Str.pad2 (month t) +:+ Str.pad2 (day t) +:+ "_" +:+
  Str.pad2 (hour t) +:+ Str.pad2 (minute t).

(** ** Floats and the [,.2f] format *)

(** A Python [float] is an IEEE binary64 value: [spec_float] with
    [prec = 53] and [emax = 1024]. *)
Abbreviation float := spec_float.

Module Float.

Definition prec : Z := 53.
Definition emax : Z := 1024.

Definition of_Z (z : Z) : float := binary_normalize prec emax z 0 false.

Definition zero : float := S754_zero false.

Definition is_nan (x : float) : bool :=
  match x with S754_nan => true | _ => false end.


(** Strictly below zero. *)
Definition negative (x : float) : bool :=
  match x with
  | S754_finite true _ _ | S754_infinity true => true
  | _ => false
  end.

(** [n / d] rounded to the nearest integer, ties to the even one
    ([d] positive). *)
Definition round_half_even (n d : Z) : Z :=
  let q := n / d in
  let r := n mod d in
  match 2 * r ?= d with
  | Lt => q
  | Gt => q + 1
  | Eq => if Z.even q then q else q + 1
  end.

(** The magnitude [m * 2^e] in hundredths, correctly rounded: what
    [format(x, '.2f')] prints without the decimal point. *)
Definition cents (m : positive) (e : Z) : Z :=
  match e with
  | Zneg k => round_half_even (Zpos m * 100) (2 ^ Zpos k)
  | _ => Zpos m * 100 * 2 ^ e
  end.

(** Decimal digits of a non-negative integer, most significant first. *)
Definition digits (z : Z) : list ascii :=
  list_ascii_of_string (NilEmpty.string_of_uint (N.to_uint (Z.to_N z))).

(** The [,] option: a comma before every group of three digits, counted
    from the right. *)
Fixpoint commas (ds : list ascii) : list ascii :=
  match ds with
  | [] => []
  | d :: ds' =>
      d :: (if ((0 <? length ds')%nat && (length ds' mod 3 =? 0)%nat)%bool
            then "," %char :: commas ds' else commas ds')
  end.

Definition sign (s : bool) : string := if s then "-" else "".

(** [format(x, ',.2f')] *)
Definition format_comma_2f (x : float) : string :=
  match x with
  | S754_nan => "nan"
  | S754_infinity s => sign s +:+ "inf"
  | S754_zero s => sign s +:+ "0.00"
  | S754_finite s m e =>
      let c := cents m e in
      sign s +:+ string_of_list_ascii (commas (digits (c / 100)))
             +:+ "." +:+ Str.pad2 (c mod 100)
  end.

(** The shape [d{1,3}(,ddd)*.dd], as a recogniser: [three_groups]
    reads the comma-led groups of three, [grouped] the whole integer
    part. *)
Fixpoint three_groups (ds : list ascii) : bool :=
  match ds with
  | [] => true
  | c :: d1 :: d2 :: d3 :: ds' =>
      (Ascii.eqb c "," && Str.is_digit d1 && Str.is_digit d2 &&
       Str.is_digit d3 && three_groups ds')%bool
  | _ => false
  end.

Definition grouped (ds : list ascii) : bool :=
  match ds with
  | d1 :: d2 :: d3 :: ds' =>
      (Str.is_digit d1 &&
       ((Str.is_digit d2 && Str.is_digit d3 && three_groups ds') ||
        (Str.is_digit d2 && three_groups (d3 :: ds')) ||
        three_groups (d2 :: d3 :: ds')))%bool
  | [d1; d2] => (Str.is_digit d1 && Str.is_digit d2)%bool
  | [d1] => Str.is_digit d1
  | [] => false
  end.

(** [money_shape s]: [s] is a grouped integer part, a point and exactly
    two decimal digits. *)
Definition money_shape (s : string) : bool :=
  let cs := rev (list_ascii_of_string s) in
  match cs with
  | d2 :: d1 :: p :: ip =>
      (Str.is_digit d2 && Str.is_digit d1 && Ascii.eqb p "." &&
       grouped (rev ip))%bool
  | _ => false
  end.

End Float.

(** ** Documents *)

(** What the FPDF calls of the program draw.  A page is the list of the
    blocks drawn on it, each text block with the font in effect. *)
Record Font := mk_font { family : string; style : string; size : Z }.

Inductive Block :=
| Cell (font : option Font) (w h : Z) (txt : string) (ln : bool)
| Ln (h : Z)
| MultiCell (font : option Font) (w h : Z) (txt : string).

Definition Page := list Block.

(** The bytes [FPDF.output] returns, represented by the document they
    encode: the page format and the pages in order. *)
Record pdf_bytes := PDF { pdf_format : string; pdf_pages : list Page }.

(** ** Frames *)

(** A value in a pandas frame: text or a number.  A number is held as the
    float that [float(...)] makes of it in the renderer. *)
Inductive value :=
| CStr (s : string)
| CNum (x : float).

(** A frame: the column labels in order and one map per row. *)
Record DataFrame := mk_frame {
  columns : list string;
  rows : list (gmap string value)
}.

(** A CSV file, represented by the table of text it holds: the header
    and one map of fields per line. *)
Record Table := mk_table {
  header : list string;
  records : list (gmap string string)
}.

(** ** The world *)

Inductive exn :=
| KeyError (key : string)
| FPDFError (msg : string)
| ParserError.

Inductive file_data :=
| PdfFile (data : pdf_bytes)
| CsvFile (data : Table).

Inductive download_data :=
| PdfData (data : pdf_bytes)
| ZipData (entries : list (string * pdf_bytes)).

(** What a handler puts on the Streamlit page. *)
Inductive widget :=
| st_warning (msg : string)
| st_info (msg : string)
| st_download_button (label : string) (data : download_data)
                     (file_name mime : string).

(** The clock is read by [datetime.now()]: the [n]-th read of a run
    returns [clock n].  [files] is the file system, [screen] the page. *)
Record World := mk_world {
  clock : nat -> datetime;
  ticks : nat;
  files : gmap string file_data;
  screen : list widget
}.

Definition M (A : Type) : Type := World -> (exn + A) * World.

Definition ret {A} (a : A) : M A := fun w => (inr a, w).

Definition bind {A B} (m : M A) (k : A -> M B) : M B :=
  fun w =>
    match m w with
    | (inl e, w') => (inl e, w')
    | (inr a, w') => k a w'
    end.

Definition raise {A} (e : exn) : M A := fun w => (inl e, w).

Declare Scope py_scope.
Delimit Scope py_scope with py.
Notation "x <- m ;; k" := (bind m (fun x => k))
  (at level 100, m at next level, right associativity) : py_scope.
Notation "m ;; k" := (bind m (fun _ => k))
  (at level 100, right associativity) : py_scope.
Local Open Scope py_scope.

(** [for x in l: s = body(s, x)] *)
Fixpoint for_each {A S} (body : S -> A -> M S) (l : list A) (s : S) : M S :=
  match l with
  | [] => ret s
  | x :: l' => s' <- body s x ;; for_each body l' s'
  end.

(** [datetime.now()] *)
Definition now : M datetime :=
  fun w => (inr (clock w (ticks w)),
            mk_world (clock w) (S (ticks w)) (files w) (screen w)).

(** [with open(path, "wb") as f: f.write(data)] *)
Definition write_file (path : string) (data : pdf_bytes) : M unit :=
  fun w => (inr tt,
            mk_world (clock w) (ticks w) (<[path := PdfFile data]> (files w))
              (screen w)).

Definition st (x : widget) : M unit :=
  fun w => (inr tt, mk_world (clock w) (ticks w) (files w) (screen w ++ [x])).

(** [d[key]] on a dictionary entry that may be absent. *)
Definition getitem {A} (key : string) (entry : option A) : M A :=
  match entry with
  | Some a => ret a
  | None => raise (KeyError key)
  end.

(** ** Files and defaults *)

Definition DATA_PATH : string := "students_sample.csv".
Definition RECEIPTS_DIR : string := "receipts".

Record Labels := mk_labels { mengaji : option string; silat : option string }.

(** The settings document [config.json]; an absent key is [None]. *)
Record Config := mk_config {
  app_title : option string;
  branding_text : option string;
  currency : option string;
  receipt_footer : option string;
  receipt_prefix : option string;
  ui_labels : option Labels
}.

Definition DEFAULT_app_title : string := "Sistem Yuran Asrama (Mengaji & Silat)".
Definition DEFAULT_branding_text : string := "SMK PONDOK UPEH".
Definition DEFAULT_receipt_footer : string :=
  "Resit ini dijana secara digital dan tidak memerlukan tandatangan.".

Definition DEFAULT_CONFIG : Config := {|
  app_title := Some DEFAULT_app_title;
  branding_text := Some DEFAULT_branding_text;
  currency := Some "RM";
  receipt_footer := Some DEFAULT_receipt_footer;
  receipt_prefix := None;
  ui_labels := Some {| mengaji := Some "Yuran Mengaji"; silat := Some "Yuran Silat" |}
|}.

(** [cfg.get(key, dflt)] *)
Definition get (entry : option string) (dflt : string) : string :=
  default dflt entry.

(** A row of the roster as the renderer receives it from [load_students]:
    [read_csv(dtype=str)] makes every text column a string and
    [ensure_columns] makes both amounts floats. *)
Record Student := mk_student {
  NAMA : string; NO_KP : string; TINGKATAN : string; KELAS : string;
  MENGAJI_STATUS : string; MENGAJI_AMOUNT : float; MENGAJI_DATE : string;
  SILAT_STATUS : string; SILAT_AMOUNT : float; SILAT_DATE : string
}.

Definition REQUIRED_COLS : list string := [
  "NAMA"; "NO_KP"; "TINGKATAN"; "KELAS";
  "MENGAJI_STATUS"; "MENGAJI_AMOUNT"; "MENGAJI_DATE";
  "SILAT_STATUS"; "SILAT_AMOUNT"; "SILAT_DATE"
].

Inductive FeeKey := MENGAJI | SILAT.

Definition fee_key_str (k : FeeKey) : string :=
  match k with MENGAJI => "MENGAJI" | SILAT => "SILAT" end.

(** ** FPDF *)

Record FPDF := mk_fpdf {
  format : string;
  auto_page_break : bool;
  b_margin : Z;
  cur_font : option Font;
  pages : list Page;       (* the pages already finished *)
  page : option Page       (* the open page, [None] before [add_page] *)
}.

Definition FPDF_new (fmt : string) : FPDF := mk_fpdf fmt true 20 None [] None.

Definition add_page (pdf : FPDF) : M FPDF :=
  ret (mk_fpdf (format pdf) (auto_page_break pdf) (b_margin pdf) (cur_font pdf)
         (pages pdf ++ option_list (page pdf)) (Some [])).

Definition set_auto_page_break (auto : bool) (margin : Z) (pdf : FPDF) : M FPDF :=
  ret (mk_fpdf (format pdf) auto margin (cur_font pdf) (pages pdf) (page pdf)).

Definition set_font (fam sty : string) (sz : Z) (pdf : FPDF) : M FPDF :=
  ret (mk_fpdf (format pdf) (auto_page_break pdf) (b_margin pdf)
         (Some (mk_font fam sty sz)) (pages pdf) (page pdf)).

(** Drawing needs an open page. *)
Definition draw (b : Block) (pdf : FPDF) : M FPDF :=
  match page pdf with
  | None => raise (FPDFError "No page open, you need to call add_page() first")
  | Some p =>
      ret (mk_fpdf (format pdf) (auto_page_break pdf) (b_margin pdf) (cur_font pdf)
             (pages pdf) (Some (p ++ [b])))
  end.

Definition cell (w h : Z) (txt : string) (ln : bool) (pdf : FPDF) : M FPDF :=
  draw (Cell (cur_font pdf) w h txt ln) pdf.

Definition ln (h : Z) (pdf : FPDF) : M FPDF := draw (Ln h) pdf.

Definition multi_cell (w h : Z) (txt : string) (pdf : FPDF) : M FPDF :=
  draw (MultiCell (cur_font pdf) w h txt) pdf.

(** [pdf.output(dest="S")]: FPDF closes the document first, and closing
    a document without a page adds a blank one. *)
Definition output (pdf : FPDF) : M pdf_bytes :=
  pdf <- (match page pdf with None => add_page pdf | Some _ => ret pdf end) ;;
  ret (PDF (format pdf) (pages pdf ++ option_list (page pdf))).

(** ** Helpers *)

Section Store.

(** pandas' parser of a numeric literal ([None]: the text is not one). *)
Variable parse_number : string -> option float.

(** [pd.to_numeric(x, errors="coerce")] on one value of a column: a
    number is kept, text is parsed, anything else becomes NaN. *)
Definition to_numeric (x : option value) : float :=
  match x with
  | Some (CNum v) => v
  | Some (CStr s) => default S754_nan (parse_number s)
  | None => S754_nan
  end.

(** [.fillna(v)] on one value. *)
Definition fillna (v x : float) : float :=
  if Float.is_nan x then v else x.

(** [df[c] = v], the same value in every row. *)
Definition setitem_const (c : string) (v : value) (df : DataFrame) : DataFrame :=
  mk_frame (if bool_decide (c ∈ columns df) then columns df else columns df ++ [c])
           (map (fun r => <[c := v]> r) (rows df)).

(** [df[c] = pd.to_numeric(df[c], errors="coerce").fillna(0.0)];
    [df[c]] raises [KeyError] for a label the frame does not have. *)
Definition setitem_to_numeric (c : string) (df : DataFrame) : M DataFrame :=
  if bool_decide (c ∈ columns df) then
    ret (mk_frame (columns df)
           (map (fun r => <[c := CNum (fillna Float.zero (to_numeric (r !! c)))]> r)
                (rows df)))
  else raise (KeyError c).

(** [df[cols]] *)
Definition getitem_cols (cols : list string) (df : DataFrame) : M DataFrame :=
  match filter (fun c => c ∉ columns df) cols with
  | [] =>
      ret (mk_frame cols
             (map (fun r => filter (fun kv => kv.1 ∈ cols) r) (rows df)))
  | c :: _ => raise (KeyError c)
  end.

Definition ensure_columns (df : DataFrame) : M DataFrame :=
  let df := fold_left (fun df c =>
              if bool_decide (c ∈ columns df) then df
              else setitem_const c (CStr "") df) REQUIRED_COLS df in
  df <- setitem_to_numeric "MENGAJI_AMOUNT" df ;;
  df <- setitem_to_numeric "SILAT_AMOUNT" df ;;
  getitem_cols REQUIRED_COLS df.

(** [pd.read_csv(path, dtype=str, keep_default_na=False)]: every field
    is kept as text. *)
Definition read_csv (t : Table) : DataFrame :=
  mk_frame (header t) (map (fmap CStr) (records t)).

Definition load_students : M DataFrame :=
  fun w =>
    match files w !! DATA_PATH with
    | Some (CsvFile t) =>
        (let df := read_csv t in
         df <- for_each (fun df col => setitem_to_numeric col df)
                 ["MENGAJI_AMOUNT"; "SILAT_AMOUNT"] df ;;
         ensure_columns df) w
    | Some (PdfFile _) => raise ParserError w
    | None => ensure_columns (mk_frame REQUIRED_COLS []) w
    end.

End Store.

(** pandas' parser on plain decimal literals: an optional sign, digits
    and an optional fraction, at most fifteen digits in all (the division
    is then correctly rounded).  Other text is outside this function. *)
Definition parse_plain (s : string) : option float :=
  let '(neg, body) := match s with
                      | String "-" r => (true, r)
                      | _ => (false, s)
                      end in
  let i := default (String.length body) (index 0 "." body) in
  let ip := substring 0 i body in
  let fp := substring (S i) (String.length body - S i) body in
  match NilEmpty.uint_of_string (ip +:+ fp) with
  | Some d =>
      if (0 <? String.length (ip +:+ fp))%nat &&
         (String.length (ip +:+ fp) <=? 15)%nat then
        let n := Z.of_N (N.of_uint d) in
        Some (match n with
              | 0 => S754_zero neg
              | _ => SFdiv Float.prec Float.emax
                       (binary_normalize Float.prec Float.emax
                          (if neg then - n else n) 0 false)
                       (Float.of_Z (10 ^ Z.of_nat (String.length fp)))
              end)
      else None
  | None => None
  end.

(** [next_receipt_no(prefix)] *)
Definition next_receipt_no (prefix : string) : M string :=
  t <- now ;;
  ret (prefix +:+ "-" +:+ strftime_Ymd_HMS t).

(** ** PDF generation *)

Definition build_receipt_pdf_bytes (cfg : Config) (student : Student)
    (fee_type_label : string) (amount : float) (date_str receipt_no : string)
  : M pdf_bytes :=
  let pdf := FPDF_new "A4" in
  pdf <- add_page pdf ;;
  pdf <- set_auto_page_break true 15 pdf ;;
  pdf <- set_font "Arial" "B" 14 pdf ;;
  pdf <- cell 0 8 (get (branding_text cfg) DEFAULT_branding_text) true pdf ;;
  pdf <- set_font "Arial" "" 12 pdf ;;
  pdf <- cell 0 6 "RESIT PEMBAYARAN YURAN" true pdf ;;
  pdf <- ln 4 pdf ;;
  (* Student info *)
  pdf <- set_font "Arial" "" 11 pdf ;;
  pdf <- cell 40 6 "Nama:" false pdf ;;
  pdf <- cell 0 6 (NAMA student) true pdf ;;
  pdf <- cell 40 6 "No. KP:" false pdf ;;
  pdf <- cell 0 6 (NO_KP student) true pdf ;;
  pdf <- cell 40 6 "Tingkatan / Kelas:" false pdf ;;
  pdf <- cell 0 6 (TINGKATAN student +:+ " / " +:+ KELAS student) true pdf ;;
  pdf <- ln 4 pdf ;;
  (* Payment section *)
  pdf <- set_font "Arial" "B" 12 pdf ;;
  pdf <- cell 0 7 "Yuran Dibayar:" true pdf ;;
  pdf <- set_font "Arial" "" 11 pdf ;;
  pdf <- cell 70 6 ("- " +:+ fee_type_label) false pdf ;;
  pdf <- cell 0 6 (get (currency cfg) "RM" +:+ Float.format_comma_2f amount) true pdf ;;
  pdf <- ln 6 pdf ;;
  (* Metadata *)
  pdf <- cell 40 6 "Tarikh:" false pdf ;;
  pdf <- cell 0 6 date_str true pdf ;;
  pdf <- cell 40 6 "No. Resit:" false pdf ;;
  pdf <- cell 0 6 receipt_no true pdf ;;
  pdf <- ln 8 pdf ;;
  pdf <- set_font "Arial" "I" 9 pdf ;;
  pdf <- multi_cell 0 5 (get (receipt_footer cfg) DEFAULT_receipt_footer) pdf ;;
  output pdf.

Definition fee_map (fee_key : FeeKey) : (Student -> float) * (Student -> string) :=
  match fee_key with
  | MENGAJI => (MENGAJI_AMOUNT, MENGAJI_DATE)
  | SILAT => (SILAT_AMOUNT, SILAT_DATE)
  end.

(** [cfg["ui_labels"]["mengaji"] if fee_key=="MENGAJI" else
    cfg["ui_labels"]["silat"]] *)
Definition fee_label (cfg : Config) (fee_key : FeeKey) : M string :=
  match fee_key with
  | MENGAJI =>
      labels <- getitem "ui_labels" (ui_labels cfg) ;;
      getitem "mengaji" (mengaji labels)
  | SILAT =>
      labels <- getitem "ui_labels" (ui_labels cfg) ;;
      getitem "silat" (silat labels)
  end.

Definition generate_single_pdf (cfg : Config) (student_row : Student)
    (fee_key : FeeKey) : M pdf_bytes :=
  label <- fee_label cfg fee_key ;;
  let '(amt_col, date_col) := fee_map fee_key in
  let amount := amt_col student_row in
  date_str <- (if Str.truthy (date_col student_row)
               then ret (date_col student_row)
               else t <- now ;; ret (strftime_Y_m_d t)) ;;
  rno <- next_receipt_no (get (receipt_prefix cfg) "DN") ;;
  build_receipt_pdf_bytes cfg student_row label amount date_str rno.

(** The body of the loop [for _, row in df_subset.iterrows()] of
    [generate_bulk_one_pdf]. *)
Definition bulk_loop_body (cfg : Config) (fee_key : FeeKey) (label : string)
    (pdf : FPDF) (row : Student) : M FPDF :=
  pdf <- add_page pdf ;;
  pdf <- set_font "Arial" "B" 14 pdf ;;
  pdf <- cell 0 8 (get (branding_text cfg) DEFAULT_branding_text) true pdf ;;
  pdf <- set_font "Arial" "" 12 pdf ;;
  pdf <- cell 0 6 "RESIT PEMBAYARAN YURAN" true pdf ;;
  pdf <- ln 4 pdf ;;

  pdf <- set_font "Arial" "" 11 pdf ;;
  pdf <- cell 40 6 "Nama:" false pdf ;;
  pdf <- cell 0 6 (NAMA row) true pdf ;;
  pdf <- cell 40 6 "No. KP:" false pdf ;;
  pdf <- cell 0 6 (NO_KP row) true pdf ;;
  pdf <- cell 40 6 "Tingkatan / Kelas:" false pdf ;;
  pdf <- cell 0 6 (TINGKATAN row +:+ " / " +:+ KELAS row) true pdf ;;
  pdf <- ln 4 pdf ;;

  let amt := match fee_key with
             | MENGAJI => MENGAJI_AMOUNT row
             | SILAT => SILAT_AMOUNT row
             end in
  let date_str := match fee_key with
                  | MENGAJI => MENGAJI_DATE row
                  | SILAT => SILAT_DATE row
                  end in
  date_str <- (if Str.truthy date_str then ret date_str
               else t <- now ;; ret (strftime_Y_m_d t)) ;;
  rno <- next_receipt_no (get (receipt_prefix cfg) "DN") ;;

  pdf <- set_font "Arial" "B" 12 pdf ;;
  pdf <- cell 0 7 "Yuran Dibayar:" true pdf ;;
  pdf <- set_font "Arial" "" 11 pdf ;;
  pdf <- cell 70 6 ("- " +:+ label) false pdf ;;
  pdf <- cell 0 6 (get (currency cfg) "RM" +:+ Float.format_comma_2f amt) true pdf ;;
  pdf <- ln 6 pdf ;;

  pdf <- cell 40 6 "Tarikh:" false pdf ;;
  pdf <- cell 0 6 date_str true pdf ;;
  pdf <- cell 40 6 "No. Resit:" false pdf ;;
  pdf <- cell 0 6 rno true pdf ;;
  pdf <- ln 8 pdf ;;
  pdf <- set_font "Arial" "I" 9 pdf ;;
  multi_cell 0 5 (get (receipt_footer cfg) DEFAULT_receipt_footer) pdf.

Definition generate_bulk_one_pdf (cfg : Config) (df_subset : list Student)
    (fee_key : FeeKey) : M pdf_bytes :=
  (* create one PDF with one page per student *)
  let pdf := FPDF_new "A4" in
  pdf <- set_auto_page_break true 15 pdf ;;
  label <- fee_label cfg fee_key ;;
  pdf <- for_each (bulk_loop_body cfg fee_key label) df_subset pdf ;;
  output pdf.

(** ** The batch handlers of the "Resit" tab *)

(** [os.path.join(RECEIPTS_DIR, fname)] *)
Definition path_join (dir fname : string) : string := dir +:+ "/" +:+ fname.

(** [f"resit_{fee_key.lower()}_{row['NAMA'].replace(' ','_')}.pdf"] *)
Definition receipt_fname (fee_key : FeeKey) (row : Student) : string :=
  "resit_" +:+ Str.lower (fee_key_str fee_key) +:+ "_" +:+
  Str.replace " " "_" (NAMA row) +:+ ".pdf".

(** The handler of "Jana Bulk (Satu Fail PDF)".  [subset] is
    [list_df.loc[selected]], the selected rows in selection order: it is
    empty exactly when [selected] is. *)
Definition jana_bulk_one_pdf (cfg : Config) (subset : list Student)
    (fee_key : FeeKey) : M unit :=
  match subset with
  | [] => st (st_warning "Pilih sekurang-kurangnya seorang.")
  | _ =>
      pdf_bytes <- generate_bulk_one_pdf cfg subset fee_key ;;
      t <- now ;;
      let fname := "bulk_" +:+ Str.lower (fee_key_str fee_key) +:+ "_" +:+
                   strftime_Ymd_HM t +:+ ".pdf" in
      write_file (path_join RECEIPTS_DIR fname) pdf_bytes ;;
      st (st_download_button "Muat Turun PDF (Semua)" (PdfData pdf_bytes)
            fname "application/pdf") ;;
      st (st_info "Setiap pelajar pada halaman berasingan dalam fail ini.")
  end.

(** [zf.writestr(fname, data)]: a ZIP archive is a sequence of entries and
    [writestr] appends one, also under a name the archive already has. *)
Definition writestr (fname : string) (data : pdf_bytes)
    (zf : list (string * pdf_bytes)) : list (string * pdf_bytes) :=
  zf ++ [(fname, data)].


(** The body of the loop [for _, row in subset.iterrows()] of the ZIP
    handler. *)
Definition zip_loop_body (cfg : Config) (fee_key : FeeKey)
    (zf : list (string * pdf_bytes)) (row : Student)
  : M (list (string * pdf_bytes)) :=
  pdfb <- generate_single_pdf cfg row fee_key ;;
  let fname := receipt_fname fee_key row in
  let zf := writestr fname pdfb zf in
  write_file (path_join RECEIPTS_DIR fname) pdfb ;;
  ret zf.

(** The handler of "Jana Bulk (Fail Terpisah -> ZIP)". *)
Definition jana_bulk_zip (cfg : Config) (subset : list Student)
    (fee_key : FeeKey) : M unit :=
  match subset with
  | [] => st (st_warning "Pilih sekurang-kurangnya seorang.")
  | _ =>
      zf <- for_each (zip_loop_body cfg fee_key) subset [] ;;
      t <- now ;;
      let zipname := "resit_zip_" +:+ Str.lower (fee_key_str fee_key) +:+ "_" +:+
                     strftime_Ymd_HM t +:+ ".zip" in
      st (st_download_button "Muat Turun ZIP" (ZipData zf) zipname
            "application/zip") ;;
      st (st_info "Semua resit disimpan dalam folder 'receipts' juga.")
  end.

(** * Observations used by the statements *)

Definition font_of (sty : string) (sz : Z) : option Font :=
  Some (mk_font "Arial" sty sz).

(** The blocks of one receipt, in drawing order. *)
Definition receipt_page (cfg : Config) (student : Student)
    (label : string) (amount : float) (date_str rno : string) : Page :=
  [ Cell (font_of "B" 14) 0 8 (get (branding_text cfg) DEFAULT_branding_text) true;
    Cell (font_of "" 12) 0 6 "RESIT PEMBAYARAN YURAN" true;
    Ln 4;
    Cell (font_of "" 11) 40 6 "Nama:" false;
    Cell (font_of "" 11) 0 6 (NAMA student) true;
    Cell (font_of "" 11) 40 6 "No. KP:" false;
    Cell (font_of "" 11) 0 6 (NO_KP student) true;
    Cell (font_of "" 11) 40 6 "Tingkatan / Kelas:" false;
    Cell (font_of "" 11) 0 6 (TINGKATAN student +:+ " / " +:+ KELAS student) true;
    Ln 4;
    Cell (font_of "B" 12) 0 7 "Yuran Dibayar:" true;
    Cell (font_of "" 11) 70 6 ("- " +:+ label) false;
    Cell (font_of "" 11) 0 6
      (get (currency cfg) "RM" +:+ Float.format_comma_2f amount) true;
    Ln 6;
    Cell (font_of "" 11) 40 6 "Tarikh:" false;
    Cell (font_of "" 11) 0 6 date_str true;
    Cell (font_of "" 11) 40 6 "No. Resit:" false;
    Cell (font_of "" 11) 0 6 rno true;
    Ln 8;
    MultiCell (font_of "I" 9) 0 5
      (get (receipt_footer cfg) DEFAULT_receipt_footer) ].

(** What [Float.commas] puts after a digit that [ds] follows: a comma
    first when [ds] is a positive number of full groups. *)
Definition led_commas (ds : list ascii) : list ascii :=
  if ((0 <? length ds)%nat && (length ds mod 3 =? 0)%nat)%bool
  then ","%char :: Float.commas ds else Float.commas ds.


(** The text of the [i]-th block of a page. *)
Definition text_at (i : nat) (p : Page) : option string :=
  match p !! i with
  | Some (Cell _ _ _ txt _) | Some (MultiCell _ _ _ txt) => Some txt
  | _ => None
  end.

(** Where a receipt page shows the amount, the date and the number. *)
Definition amount_shown (p : Page) : option string := text_at 12 p.
Definition receipt_no_shown (p : Page) : option string := text_at 17 p.

(** The world after [n] more reads of the clock. *)
Definition advance (n : nat) (w : World) : World :=
  mk_world (clock w) (n + ticks w) (files w) (screen w).

Definition fee_amount (fee_key : FeeKey) (s : Student) : float :=
  (fee_map fee_key).1 s.

Definition fee_date (fee_key : FeeKey) (s : Student) : string :=
  (fee_map fee_key).2 s.

(** Clock reads of one receipt: one for a blank date, one for the number. *)
Definition clock_reads (fee_key : FeeKey) (s : Student) : nat :=
  if Str.truthy (fee_date fee_key s) then 1%nat else 2%nat.

(** The date a receipt drawn in world [w] carries. *)
Definition date_at (fee_key : FeeKey) (s : Student) (w : World) : string :=
  if Str.truthy (fee_date fee_key s) then fee_date fee_key s
  else strftime_Y_m_d (clock w (ticks w)).

(** The receipt number made from the [k]-th read of the clock. *)
Definition receipt_no_at (cfg : Config) (w : World) (k : nat) : string :=
  get (receipt_prefix cfg) "DN" +:+ "-" +:+ strftime_Ymd_HMS (clock w k).

(** The index of the clock read that numbers a receipt drawn in [w]. *)
Definition number_tick (fee_key : FeeKey) (s : Student) (w : World) : nat :=
  (clock_reads fee_key s - 1 + ticks w)%nat.

(** The page of the receipt of [s] drawn in world [w]. *)
Definition single_page (cfg : Config) (label : string) (fee_key : FeeKey)
    (s : Student) (w : World) : Page :=
  receipt_page cfg s label (fee_amount fee_key s) (date_at fee_key s w)
    (receipt_no_at cfg w (number_tick fee_key s w)).

(** The pages of the receipts of [l], drawn one after the other from [w]. *)
Fixpoint batch_pages (cfg : Config) (label : string) (fee : FeeKey)
    (l : list Student) (w : World) : list Page :=
  match l with
  | [] => []
  | s :: l' =>
      single_page cfg label fee s w ::
      batch_pages cfg label fee l' (advance (clock_reads fee s) w)
  end.

Fixpoint batch_world (fee : FeeKey) (l : list Student) (w : World) : World :=
  match l with
  | [] => w
  | s :: l' => batch_world fee l' (advance (clock_reads fee s) w)
  end.



(** The record [s] with other values in its SILAT fields, and in its
    MENGAJI fields. *)
Definition with_silat (s : Student) (status : string) (amount : float)
    (date : string) : Student :=
  mk_student (NAMA s) (NO_KP s) (TINGKATAN s) (KELAS s)
    (MENGAJI_STATUS s) (MENGAJI_AMOUNT s) (MENGAJI_DATE s) status amount date.

Definition with_mengaji (s : Student) (status : string) (amount : float)
    (date : string) : Student :=
  mk_student (NAMA s) (NO_KP s) (TINGKATAN s) (KELAS s)
    status amount date (SILAT_STATUS s) (SILAT_AMOUNT s) (SILAT_DATE s).


(** The archive entries of the receipts of [l]: one per record, in
    order, under the record's file name. *)
Definition batch_entries (cfg : Config) (label : string) (fee : FeeKey)
    (l : list Student) (w : World) : list (string * pdf_bytes) :=
  combine (map (receipt_fname fee) l)
          (map (fun p => PDF "A4" [p]) (batch_pages cfg label fee l w)).

(** The files after each entry was written, in order, under the receipts
    directory. *)
Definition written (es : list (string * pdf_bytes))
    (fs : gmap string file_data) : gmap string file_data :=
  fold_left (fun fs e => <[path_join RECEIPTS_DIR e.1 := PdfFile e.2]> fs) es fs.

(** The identity number a document shows on its first page. *)
Definition id_number_shown (doc : pdf_bytes) : option string :=
  match pdf_pages doc with
  | p :: _ => text_at 6 p
  | [] => None
  end.

(** The receipt numbers on the pages of a returned document. *)
Definition receipt_numbers (r : exn + pdf_bytes) : list (option string) :=
  match r with
  | inr doc => map receipt_no_shown (pdf_pages doc)
  | inl _ => []
  end.

(** The two amount columns. *)
Definition amount_columns : list string := ["MENGAJI_AMOUNT"; "SILAT_AMOUNT"].

(** What [ensure_columns] finds in column [c] of row [r] of [df]: the
    value of the row, or the empty text it puts in a column the frame
    lacks. *)
Definition source_value (df : DataFrame) (r : gmap string value) (c : string)
  : option value :=
  if bool_decide (c ∈ columns df) then r !! c else Some (CStr "").

(** Both amounts of every row are floats, none of them NaN. *)
Definition numeric_amounts (df : DataFrame) : Prop :=
  Forall (fun r => forall c, c ∈ amount_columns ->
            exists x, r !! c = Some (CNum x) /\ Float.is_nan x = false)
         (rows df).

(** The row [r] with empty text in each of the columns [cs]. *)
Definition with_empty (cs : list string) (r : gmap string value)
  : gmap string value :=
  fold_left (fun r c => <[c := CStr ""]> r) cs r.

(** One step of the loop [for c in REQUIRED_COLS] of [ensure_columns]. *)
Definition add_missing (df : DataFrame) (c : string) : DataFrame :=
  if bool_decide (c ∈ columns df) then df else setitem_const c (CStr "") df.

(** The required columns a frame lacks. *)
Definition missing_columns (df : DataFrame) : list string :=
  filter (fun c => c ∉ columns df) REQUIRED_COLS.

(** [x] coerced as [ensure_columns] coerces an amount. *)
Definition coerced (parse_number : string -> option float) (x : option value)
  : value :=
  CNum (fillna Float.zero (to_numeric parse_number x)).

(** The row [ensure_columns] makes of row [r] of [df]. *)
Definition normalised_row (parse_number : string -> option float)
    (df : DataFrame) (r : gmap string value) : gmap string value :=
  let r := with_empty (missing_columns df) r in
  let r := <["MENGAJI_AMOUNT" := coerced parse_number (r !! "MENGAJI_AMOUNT")]> r in
  let r := <["SILAT_AMOUNT" := coerced parse_number (r !! "SILAT_AMOUNT")]> r in
  filter (fun kv => kv.1 ∈ REQUIRED_COLS) r.

(** The pairs of amounts of the rows of a returned frame. *)
Definition amounts_of (res : exn + DataFrame)
  : list (option value * option value) :=
  match res with
  | inr df => map (fun r => (r !! "MENGAJI_AMOUNT", r !! "SILAT_AMOUNT")) (rows df)
  | inl _ => []
  end.

(** ** Sample inputs *)

(** A clock that stands still: every read falls in the same second. *)
Definition frozen_clock : nat -> datetime :=
  fun _ => mk_datetime 2025 1 2 3 4 5.

(** A clock that moves on by a second at every read. *)
Definition ticking_clock : nat -> datetime :=
  fun n => mk_datetime 2025 1 2 3 4 (Z.of_nat n).

Definition frozen_world : World := mk_world frozen_clock 0 ∅ [].
Definition ticking_world : World := mk_world ticking_clock 0 ∅ [].

Definition ali : Student :=
  mk_student "Ali bin Ahmad" "010101-01-0101" "4" "Bestari"
    "Sudah Bayar" (Float.of_Z 50) "" "Belum Bayar" Float.zero "".

Definition siti : Student :=
  mk_student "Siti Aminah" "020202-02-0202" "5" "Dinamik"
    "Sudah Bayar" (Float.of_Z 50) "2025-01-01" "Belum Bayar" Float.zero "".

(** A namesake of [ali] with another identity number. *)
Definition ali2 : Student :=
  mk_student "Ali bin Ahmad" "030303-03-0303" "5" "Kreatif"
    "Sudah Bayar" (Float.of_Z 60) "" "Belum Bayar" Float.zero "".

(** A settings document whose label dictionary is empty, and an empty
    settings document. *)
Definition cfg_no_labels : Config :=
  mk_config None None None None None (Some (mk_labels None None)).

Definition cfg_empty : Config := mk_config None None None None None None.

(** A roster of one row as [read_csv] returns it, with a negative
    amount in the file, and the same roster after an edit in the table
    editor, with a negative float. *)
Definition roster_negative_text : DataFrame :=
  mk_frame ["NAMA"; "MENGAJI_AMOUNT"; "SILAT_AMOUNT"]
    [ {[ "NAMA" := CStr "Ali bin Ahmad"; "MENGAJI_AMOUNT" := CStr "-5";
         "SILAT_AMOUNT" := CStr "abc" ]} ].

Definition roster_negative_float : DataFrame :=
  mk_frame ["NAMA"; "MENGAJI_AMOUNT"; "SILAT_AMOUNT"]
    [ {[ "NAMA" := CStr "Ali bin Ahmad";
         "MENGAJI_AMOUNT" := CNum (Float.of_Z (-5));
         "SILAT_AMOUNT" := CNum Float.zero ]} ].

(** * The rest of the receipt tab, the store and the settings *)

(** ** The receipt tab *)

(** The option picked in a select box of two options. *)
Inductive option_pick := first_option | second_option.

(** The choice of the fee category:
    [fee_label_choice = selectbox([cfg["ui_labels"]["mengaji"],
    cfg["ui_labels"]["silat"]])], then [fee_key = "MENGAJI" if
    fee_label_choice == cfg["ui_labels"]["mengaji"] else "SILAT"]. *)
Definition select_fee_key (cfg : Config) (pick : option_pick) : M FeeKey :=
  labels <- getitem "ui_labels" (ui_labels cfg) ;;
  opt1 <- getitem "mengaji" (mengaji labels) ;;
  labels <- getitem "ui_labels" (ui_labels cfg) ;;
  opt2 <- getitem "silat" (silat labels) ;;
  let fee_label_choice := match pick with
                          | first_option => opt1
                          | second_option => opt2
                          end in
  labels <- getitem "ui_labels" (ui_labels cfg) ;;
  m <- getitem "mengaji" (mengaji labels) ;;
  ret (if String.eqb fee_label_choice m then MENGAJI else SILAT).

(** The handler of "Jana Individu".  [subset] is the selected rows in
    selection order; the handler takes [selected[0]]. *)
Definition jana_individu (cfg : Config) (subset : list Student)
    (fee_key : FeeKey) : M unit :=
  match subset with
  | [] => st (st_warning "Pilih seorang pelajar.")
  | row :: _ =>
      pdf_bytes <- generate_single_pdf cfg row fee_key ;;
      let fname := receipt_fname fee_key row in
      write_file (path_join RECEIPTS_DIR fname) pdf_bytes ;;
      st (st_download_button "Muat Turun PDF" (PdfData pdf_bytes) fname
            "application/pdf") ;;
      st (st_info "Muat turun dan gunakan Share → Print (iPad).")
  end.

(** ** Saving and extending the roster *)

Section Saving.

(** The text [to_csv] writes for a number that is not NaN. *)
Variable show_number : float -> string.

(** The field [to_csv] writes for a value; a missing value and NaN are
    written as the empty field. *)
Definition to_csv_field (x : option value) : string :=
  match x with
  | Some (CStr s) => s
  | Some (CNum v) => if Float.is_nan v then "" else show_number v
  | None => ""
  end.

(** [df.to_csv(path, index=False)], as the table of the file written. *)
Definition to_csv (df : DataFrame) : Table :=
  mk_table (columns df)
    (map (fun r => list_to_map (map (fun c => (c, to_csv_field (r !! c)))
                                    (columns df)))
         (rows df)).

Definition save_students (df : DataFrame) : M unit :=
  fun w => (inr tt,
            mk_world (clock w) (ticks w)
              (<[DATA_PATH := CsvFile (to_csv df)]> (files w)) (screen w)).

End Saving.

(** The dictionary [new] of the form "Tambah Pelajar Baharu". *)
Definition new_student (name ic ting kelas : string)
    (mengaji_amt silat_amt : float) : gmap string value :=
  list_to_map [
    ("NAMA", CStr name); ("NO_KP", CStr ic); ("TINGKATAN", CStr ting);
    ("KELAS", CStr kelas);
    ("MENGAJI_STATUS", CStr "Belum Bayar"); ("MENGAJI_AMOUNT", CNum mengaji_amt);
    ("MENGAJI_DATE", CStr "");
    ("SILAT_STATUS", CStr "Belum Bayar"); ("SILAT_AMOUNT", CNum silat_amt);
    ("SILAT_DATE", CStr "")
  ].

(** [pd.concat([df, pd.DataFrame([new])], ignore_index=True)] for a
    dictionary [new] with the keys [keys], in order: the labels of [new]
    the frame lacks become columns, the row is put last. *)
Definition concat_row (df : DataFrame) (keys : list string)
    (new : gmap string value) : DataFrame :=
  mk_frame (columns df ++ filter (fun c => c ∉ columns df) keys)
           (rows df ++ [new]).

(** ** The settings *)

(** [st.text_input(label, value=v)]: the text typed into the field, [v]
    when nothing was typed. *)
Definition text_input (typed : option string) (value : string) : string :=
  default value typed.

(** What was typed into the six fields of the settings form. *)
Record SettingsInput := mk_settings_input {
  typed_app_title : option string;
  typed_branding_text : option string;
  typed_currency : option string;
  typed_receipt_footer : option string;
  typed_mengaji : option string;
  typed_silat : option string
}.

(** The assignments of the settings tab to [cfg]. *)
Definition settings_form (cfg : Config) (typed : SettingsInput) : M Config :=
  let cfg := mk_config
    (Some (text_input (typed_app_title typed)
             (get (app_title cfg) DEFAULT_app_title)))
    (branding_text cfg) (currency cfg) (receipt_footer cfg)
    (receipt_prefix cfg) (ui_labels cfg) in
  let cfg := mk_config (app_title cfg)
    (Some (text_input (typed_branding_text typed)
             (get (branding_text cfg) DEFAULT_branding_text)))
    (currency cfg) (receipt_footer cfg) (receipt_prefix cfg) (ui_labels cfg) in
  let cfg := mk_config (app_title cfg) (branding_text cfg)
    (Some (text_input (typed_currency typed) (get (currency cfg) "RM")))
    (receipt_footer cfg) (receipt_prefix cfg) (ui_labels cfg) in
  let cfg := mk_config (app_title cfg) (branding_text cfg) (currency cfg)
    (Some (text_input (typed_receipt_footer typed)
             (get (receipt_footer cfg) DEFAULT_receipt_footer)))
    (receipt_prefix cfg) (ui_labels cfg) in
  labels <- getitem "ui_labels" (ui_labels cfg) ;;
  let v := text_input (typed_mengaji typed) (get (mengaji labels) "Yuran Mengaji") in
  labels <- getitem "ui_labels" (ui_labels cfg) ;;
  let cfg := mk_config (app_title cfg) (branding_text cfg) (currency cfg)
    (receipt_footer cfg) (receipt_prefix cfg)
    (Some (mk_labels (Some v) (silat labels))) in
  labels <- getitem "ui_labels" (ui_labels cfg) ;;
  let v := text_input (typed_silat typed) (get (silat labels) "Yuran Silat") in
  labels <- getitem "ui_labels" (ui_labels cfg) ;;
  ret (mk_config (app_title cfg) (branding_text cfg) (currency cfg)
         (receipt_footer cfg) (receipt_prefix cfg)
         (Some (mk_labels (mengaji labels) (Some v)))).

(** ** Observations on the store *)

(** A row as [load_students] makes it of a complete line of the file:
    only the required columns, text in the text columns and a float that
    is not NaN in both amount columns. *)
Definition typed_row (r : gmap string value) : Prop :=
  (forall c, c ∉ REQUIRED_COLS -> r !! c = None) /\
  (forall c, c ∈ REQUIRED_COLS -> c ∉ amount_columns ->
             exists s, r !! c = Some (CStr s)) /\
  (forall c, c ∈ amount_columns ->
             exists x, r !! c = Some (CNum x) /\ Float.is_nan x = false).

Definition typed_roster (df : DataFrame) : Prop :=
  columns df = REQUIRED_COLS /\ Forall typed_row (rows df).

(** Every line of the file has a field for every column of the header. *)
Definition complete_table (t : Table) : Prop :=
  Forall (fun rec => forall c, c ∈ header t -> is_Some (rec !! c)) (records t).

(** What a row of the normalised frame holds in column [c]. *)
Definition normalised_value (parse_number : string -> option float)
    (df : DataFrame) (r : gmap string value) (c : string) : option value :=
  if bool_decide (c ∈ REQUIRED_COLS) then
    if bool_decide (c ∈ amount_columns)
    then Some (coerced parse_number (source_value df r c))
    else source_value df r c
  else None.

(** The world with the roster file replaced. *)
Definition with_roster (t : Table) (w : World) : World :=
  mk_world (clock w) (ticks w) (<[DATA_PATH := CsvFile t]> (files w)) (screen w).

(** The world with one more receipt file. *)
Definition with_receipt (fname : string) (doc : pdf_bytes) (w : World) : World :=
  mk_world (clock w) (ticks w)
    (<[path_join RECEIPTS_DIR fname := PdfFile doc]> (files w)) (screen w).

(** The world with more widgets on the page. *)
Definition with_widgets (ws : list widget) (w : World) : World :=
  mk_world (clock w) (ticks w) (files w) (screen w ++ ws).

(** ** More sample inputs *)

(** A roster file without the amount columns. *)
Definition names_only_table : Table :=
  mk_table ["NAMA"; "NO_KP"]
    [ {[ "NAMA" := "Ali bin Ahmad"; "NO_KP" := "010101-01-0101" ]} ].

Definition names_only_world : World :=
  mk_world frozen_clock 0 {[ DATA_PATH := CsvFile names_only_table ]} [].

(** A roster of one typed row. *)
Definition ali_row : gmap string value :=
  new_student "Ali bin Ahmad" "010101-01-0101" "4" "Bestari"
    (Float.of_Z 50) Float.zero.

Definition ali_roster : DataFrame := mk_frame REQUIRED_COLS [ali_row].

(** A rendering of the two amounts of [ali_roster] as text. *)
Definition show_sample (x : float) : string :=
  match x with
  | S754_zero _ => "0.0"
  | _ => "50.0"
  end.

(** A settings document whose two labels are the same text. *)
Definition cfg_same_labels : Config :=
  mk_config None None None None None
    (Some (mk_labels (Some "Yuran") (Some "Yuran"))).

Definition nothing_typed : SettingsInput :=
  mk_settings_input None None None None None None.

(** ** Observations on receipts *)

(** The entry of the label dictionary the category reads, and its key. *)
Definition label_entry (fee : FeeKey) (labels : Labels) : option string :=
  match fee with MENGAJI => mengaji labels | SILAT => silat labels end.

Definition label_key (fee : FeeKey) : string :=
  match fee with MENGAJI => "mengaji" | SILAT => "silat" end.

(** The clock reads of the receipts of [l]. *)
Definition batch_reads (fee : FeeKey) (l : list Student) : nat :=
  list_sum (map (clock_reads fee) l).

(** A path under the receipts directory. *)
Definition under_receipts (path : string) : bool :=
  String.prefix (RECEIPTS_DIR +:+ "/") path.

(** The text that names the minute of a clock read in a file name. *)
Definition minute_stamp (w : World) (k : nat) : string :=
  strftime_Ymd_HM (clock w k).

(** * Properties *)

(** ** The renderer *)


Lemma fee_label_pure cfg fee w w' :
  fee_label cfg fee w = ((fee_label cfg fee w').1, w).
Proof.
  unfold fee_label. destruct fee, (ui_labels cfg) as [[[m|] [s|]]|]; reflexivity.
Qed.

Lemma fee_label_ok_any cfg fee label w w' :
  fee_label cfg fee w = (inr label, w) -> fee_label cfg fee w' = (inr label, w').
Proof.
  intros H. rewrite (fee_label_pure cfg fee w' w), H. reflexivity.
Qed.

Lemma generate_single_pdf_eq cfg s fee label w :
  fee_label cfg fee w = (inr label, w) ->
  generate_single_pdf cfg s fee w
  = (inr (PDF "A4" [single_page cfg label fee s w]),
     advance (clock_reads fee s) w).
Proof.
  intros Hl. unfold generate_single_pdf, bind. rewrite Hl.
  unfold single_page, number_tick, clock_reads, date_at, fee_date, fee_amount.
  destruct fee; simpl; destruct (Str.truthy _); reflexivity.
Qed.

Lemma generate_single_pdf_err cfg s fee e w :
  (fee_label cfg fee w).1 = inl e ->
  generate_single_pdf cfg s fee w = (inl e, w).
Proof.
  intros Hl. unfold generate_single_pdf, bind.
  rewrite (fee_label_pure cfg fee w w), Hl. reflexivity.
Qed.

(** ** The combined batch *)

Lemma bulk_loop_body_eq cfg fee label pdf row w :
  bulk_loop_body cfg fee label pdf row w
  = (inr (mk_fpdf (format pdf) (auto_page_break pdf) (b_margin pdf)
            (font_of "I" 9) (pages pdf ++ option_list (page pdf))
            (Some (single_page cfg label fee row w))),
     advance (clock_reads fee row) w).
Proof.
  unfold bulk_loop_body, single_page, number_tick, clock_reads, date_at,
    fee_date, fee_amount.
  destruct fee; simpl; destruct (Str.truthy _); reflexivity.
Qed.

Lemma bulk_loop_eq cfg fee label l : forall pdf w,
  exists pdf',
    for_each (bulk_loop_body cfg fee label) l pdf w
    = (inr pdf', batch_world fee l w) /\
    format pdf' = format pdf /\
    pages pdf' ++ option_list (page pdf')
    = (pages pdf ++ option_list (page pdf)) ++ batch_pages cfg label fee l w /\
    (l <> [] -> page pdf' <> None).
Proof.
  induction l as [|s l IH]; intros pdf w; simpl.
  - exists pdf. rewrite app_nil_r. repeat split; congruence.
  - unfold bind at 1. rewrite bulk_loop_body_eq.
    edestruct IH as (pdf' & Hrun & Hfmt & Hpages & Hopen).
    exists pdf'. split; [exact Hrun|]. split; [exact Hfmt|]. split.
    + rewrite Hpages. simpl. rewrite <- !app_assoc. reflexivity.
    + intros _. destruct l; [|apply Hopen; congruence].
      simpl in Hrun. injection Hrun as <-. simpl. congruence.
Qed.



Lemma generate_bulk_one_pdf_eq cfg fee label l w :
  l <> [] ->
  fee_label cfg fee w = (inr label, w) ->
  generate_bulk_one_pdf cfg l fee w
  = (inr (PDF "A4" (batch_pages cfg label fee l w)), batch_world fee l w).
Proof.
  intros Hne Hl. unfold generate_bulk_one_pdf.
  unfold bind at 1. simpl. unfold bind at 1. rewrite Hl.
  unfold bind at 1.
  edestruct (bulk_loop_eq cfg fee label l) as (pdf' & -> & Hfmt & Hpages & Hopen).
  unfold output, bind. destruct (page pdf') eqn:E; [|specialize (Hopen Hne); congruence].
  unfold ret. rewrite Hfmt. simpl in Hpages. rewrite E. simpl.
  rewrite Hpages. reflexivity.
Qed.

(** ** Claims on the single render *)


(** C10. The MENGAJI receipt of a record does not change when the
    record's SILAT_STATUS, SILAT_AMOUNT and SILAT_DATE take other values,
    and the SILAT receipt does not change when the MENGAJI fields do. *)
Theorem fee_categories_do_not_interfere cfg s status amount date w :
  generate_single_pdf cfg (with_silat s status amount date) MENGAJI w
  = generate_single_pdf cfg s MENGAJI w /\
  generate_single_pdf cfg (with_mengaji s status amount date) SILAT w
  = generate_single_pdf cfg s SILAT w.
Proof.
  split.
  - destruct (fee_label cfg MENGAJI w).1 as [e|label] eqn:E.
    + rewrite !(generate_single_pdf_err _ _ _ e) by exact E. reflexivity.
    + assert (Hl : fee_label cfg MENGAJI w = (inr label, w))
        by (rewrite (fee_label_pure _ _ w w), E; reflexivity).
      rewrite !(generate_single_pdf_eq _ _ _ label) by exact Hl. reflexivity.
  - destruct (fee_label cfg SILAT w).1 as [e|label] eqn:E.
    + rewrite !(generate_single_pdf_err _ _ _ e) by exact E. reflexivity.
    + assert (Hl : fee_label cfg SILAT w = (inr label, w))
        by (rewrite (fee_label_pure _ _ w w), E; reflexivity).
      rewrite !(generate_single_pdf_eq _ _ _ label) by exact Hl. reflexivity.
Qed.



(** C7. The render does not fall back to a default for the display
    labels: with a settings document whose label dictionary lacks the
    key, [generate_single_pdf] raises [KeyError]. *)
Theorem absent_label_raises_key_error :
  generate_single_pdf cfg_no_labels ali MENGAJI frozen_world
  = (inl (KeyError "mengaji"), frozen_world) /\
  generate_single_pdf cfg_no_labels ali SILAT frozen_world
  = (inl (KeyError "silat"), frozen_world) /\
  generate_single_pdf cfg_empty ali MENGAJI frozen_world
  = (inl (KeyError "ui_labels"), frozen_world).
Proof. repeat split. Qed.

(** The other keys of the settings document do fall back: branding text,
    currency, footer and receipt prefix. *)
Lemma absent_keys_fall_back labels label fee s w :
  let cfg := mk_config None None None None None (Some labels) in
  fee_label cfg fee w = (inr label, w) ->
  exists page w',
    generate_single_pdf cfg s fee w = (inr (PDF "A4" [page]), w') /\
    text_at 0 page = Some "SMK PONDOK UPEH" /\
    amount_shown page = Some ("RM" +:+ Float.format_comma_2f (fee_amount fee s)) /\
    receipt_no_shown page
    = Some ("DN-" +:+ strftime_Ymd_HMS (clock w (number_tick fee s w))) /\
    text_at 19 page
    = Some "Resit ini dijana secara digital dan tidak memerlukan tandatangan.".
Proof.
  intros cfg Hl. eexists _, _. split; [apply generate_single_pdf_eq, Hl|].
  repeat split.
Qed.

(** ** Claims on the batch operations *)

(** C1, as stated, fails: on an empty sequence the combined render raises
    nothing and returns a document, of one blank page. *)
Lemma empty_batch_returns_blank_document :
  (generate_bulk_one_pdf DEFAULT_CONFIG [] MENGAJI frozen_world).1
  = inr (PDF "A4" [[]]).
Proof. reflexivity. Qed.

(** C1, amended. The empty selection is stopped in the handlers: both
    batch handlers put a warning on the page and do nothing else (no
    clock read, no file, no download).  [generate_bulk_one_pdf] itself has
    no check of its input: on an empty sequence it reads its label and
    returns a document of one blank page, in an unchanged world. *)
Theorem empty_batch_stopped_by_handlers cfg fee w :
  let warned :=
    mk_world (clock w) (ticks w) (files w)
      (screen w ++ [st_warning "Pilih sekurang-kurangnya seorang."]) in
  jana_bulk_one_pdf cfg [] fee w = (inr tt, warned) /\
  jana_bulk_zip cfg [] fee w = (inr tt, warned) /\
  generate_bulk_one_pdf cfg [] fee w
  = (match (fee_label cfg fee w).1 with
     | inl e => inl e
     | inr _ => inr (PDF "A4" [[]])
     end, w).
Proof.
  repeat split.
  unfold generate_bulk_one_pdf. unfold bind at 1. simpl. unfold bind at 1.
  rewrite (fee_label_pure cfg fee w w).
  destruct (fee_label cfg fee w).1; reflexivity.
Qed.



(** ** Receipt numbers *)

(** [lia] with division and remainder by constants. *)
Ltac Zify.zify_post_hook ::= Z.to_euclidean_division_equations.

Lemma digit_inj a b :
  0 <= a < 10 -> 0 <= b < 10 -> Str.digit a = Str.digit b -> a = b.
Proof.
  intros Ha Hb H. unfold Str.digit in H.
  rewrite !Z.mod_small in H by lia.
  apply (f_equal N_of_ascii) in H.
  rewrite !N_ascii_embedding in H by lia. lia.
Qed.

Lemma pad2_inj a b :
  0 <= a < 100 -> 0 <= b < 100 -> Str.pad2 a = Str.pad2 b -> a = b.
Proof.
  intros Ha Hb H. unfold Str.pad2 in H. injection H as H1 H2.
  assert (Str.digit (a mod 10) = Str.digit (b mod 10)) as H2'
    by (unfold Str.digit in *; rewrite !Z.mod_mod by lia; exact H2).
  apply digit_inj in H1; [|lia..].
  apply digit_inj in H2'; [|lia..]. lia.
Qed.

Lemma pad4_inj a b :
  0 <= a < 10000 -> 0 <= b < 10000 -> Str.pad4 a = Str.pad4 b -> a = b.
Proof.
  intros Ha Hb H. unfold Str.pad4, Str.pad2 in H. injection H as H1 H2 H3 H4.
  assert (forall x, Str.digit x = Str.digit (x mod 10)) as Hm
    by (intros x; unfold Str.digit; rewrite Z.mod_mod by lia; reflexivity).
  rewrite (Hm (a / 100)), (Hm (b / 100)) in H2.
  rewrite (Hm (a / 10)), (Hm (b / 10)) in H3.
  rewrite (Hm a), (Hm b) in H4.
  apply digit_inj in H1; [|lia..].
  apply digit_inj in H2; [|lia..].
  apply digit_inj in H3; [|lia..].
  apply digit_inj in H4; [|lia..]. lia.
Qed.

Lemma strftime_Ymd_HMS_inj t1 t2 :
  valid_datetime t1 -> valid_datetime t2 ->
  strftime_Ymd_HMS t1 = strftime_Ymd_HMS t2 -> t1 = t2.
Proof.
  intros V1 V2 H. destruct t1 as [y1 m1 d1 h1 i1 s1], t2 as [y2 m2 d2 h2 i2 s2].
  unfold valid_datetime in *. simpl in *.
  unfold strftime_Ymd_HMS in H. simpl in H.
  injection H as Hy1 Hy2 Hy3 Hy4 Hm1 Hm2 Hd1 Hd2 Hh1 Hh2 Hi1 Hi2 Hs1 Hs2.
  assert (y1 = y2) by (apply pad4_inj; [lia..|unfold Str.pad4, Str.pad2; congruence]).
  assert (m1 = m2) by (apply pad2_inj; [lia..|unfold Str.pad2; congruence]).
  assert (d1 = d2) by (apply pad2_inj; [lia..|unfold Str.pad2; congruence]).
  assert (h1 = h2) by (apply pad2_inj; [lia..|unfold Str.pad2; congruence]).
  assert (i1 = i2) by (apply pad2_inj; [lia..|unfold Str.pad2; congruence]).
  assert (s1 = s2) by (apply pad2_inj; [lia..|unfold Str.pad2; congruence]).
  congruence.
Qed.

Lemma append_inv_head (s a b : string) : s +:+ a = s +:+ b -> a = b.
Proof. induction s; simpl; intros H; [exact H|injection H; auto]. Qed.






Example ticking_numbers_distinct :
  receipt_numbers
    (generate_bulk_one_pdf DEFAULT_CONFIG [ali; siti; ali2] MENGAJI ticking_world).1
  = [Some "DN-20250102-030401"; Some "DN-20250102-030402";
     Some "DN-20250102-030404"].
Proof. reflexivity. Qed.

(** ** The archive *)

Lemma batch_pages_world cfg label fee l : forall c t f1 s1 f2 s2,
  batch_pages cfg label fee l (mk_world c t f1 s1)
  = batch_pages cfg label fee l (mk_world c t f2 s2).
Proof.
  induction l as [|s l IH]; intros c t f1 s1 f2 s2; simpl; [reflexivity|].
  f_equal. apply IH.
Qed.

Lemma batch_world_ticks fee l : forall c t f1 s1 f2 s2,
  ticks (batch_world fee l (mk_world c t f1 s1))
  = ticks (batch_world fee l (mk_world c t f2 s2)).
Proof.
  induction l as [|s l IH]; intros c t f1 s1 f2 s2; simpl; [reflexivity|].
  apply IH.
Qed.

Lemma batch_world_clock fee l : forall w, clock (batch_world fee l w) = clock w.
Proof. induction l as [|s l IH]; intros w; simpl; [reflexivity|]. rewrite IH. reflexivity. Qed.

Lemma zip_loop_eq cfg fee label l : forall zf w,
  fee_label cfg fee w = (inr label, w) ->
  for_each (zip_loop_body cfg fee) l zf w
  = (inr (zf ++ batch_entries cfg label fee l w),
     mk_world (clock w) (ticks (batch_world fee l w))
       (written (batch_entries cfg label fee l w) (files w)) (screen w)).
Proof.
  induction l as [|s l IH]; intros zf w Hl.
  - simpl. unfold batch_entries, written. simpl. rewrite app_nil_r.
    destruct w; reflexivity.
  - simpl. unfold bind at 1. unfold zip_loop_body at 1. unfold bind at 1.
    rewrite (generate_single_pdf_eq _ _ _ _ _ Hl). simpl.
    rewrite IH by (eapply fee_label_ok_any, Hl).
    unfold writestr, batch_entries, advance. simpl.
    rewrite <- app_assoc. simpl.
    rewrite (batch_pages_world cfg label fee l (clock w) _ _ (screen w)
               (files w) (screen w)).
    rewrite (batch_world_ticks fee l (clock w) _ _ (screen w) (files w) (screen w)).
    reflexivity.
Qed.




Lemma jana_bulk_zip_eq cfg fee label l w :
  l <> [] ->
  fee_label cfg fee w = (inr label, w) ->
  let es := batch_entries cfg label fee l w in
  let w1 := batch_world fee l w in
  jana_bulk_zip cfg l fee w
  = (inr tt,
     mk_world (clock w) (S (ticks w1)) (written es (files w))
       (screen w ++
        [st_download_button "Muat Turun ZIP" (ZipData es)
           ("resit_zip_" +:+ Str.lower (fee_key_str fee) +:+ "_" +:+
            strftime_Ymd_HM (clock w (ticks w1)) +:+ ".zip")
           "application/zip";
         st_info "Semua resit disimpan dalam folder 'receipts' juga."])).
Proof.
  intros Hne Hl es w1. destruct l as [|s l]; [congruence|].
  unfold jana_bulk_zip. unfold bind at 1.
  rewrite (zip_loop_eq cfg fee label (s :: l) [] w Hl).
  unfold bind, now, st. simpl. rewrite <- app_assoc. reflexivity.
Qed.

Lemma list_ascii_of_string_app (a b : string) :
  list_ascii_of_string (a +:+ b)
  = list_ascii_of_string a ++ list_ascii_of_string b.
Proof. induction a as [|c a IH]; simpl; [reflexivity|]. rewrite IH. reflexivity. Qed.

Lemma append_inv_tail (a b t : string) : a +:+ t = b +:+ t -> a = b.
Proof.
  intros H. apply (f_equal list_ascii_of_string) in H.
  rewrite !list_ascii_of_string_app in H. apply app_inv_tail in H.
  rewrite <- (string_of_list_ascii_of_string a),
          <- (string_of_list_ascii_of_string b), H.
  reflexivity.
Qed.







Example namesake_file_holds_later_receipt :
  match files (jana_bulk_zip DEFAULT_CONFIG [ali; ali2] MENGAJI frozen_world).2
          !! path_join RECEIPTS_DIR "resit_mengaji_Ali_bin_Ahmad.pdf" with
  | Some (PdfFile doc) => id_number_shown doc
  | _ => None
  end = Some "030303-03-0303".
Proof. vm_compute. reflexivity. Qed.

(** ** The amount format *)






Lemma led_commas_nil : led_commas [] = [].
Proof. reflexivity. Qed.








Example format_1234_5 :
  Float.format_comma_2f (binary_normalize 53 1024 2469 (-1) false) = "1,234.50".
Proof. vm_compute. reflexivity. Qed.

Example format_tie_to_even :
  Float.format_comma_2f (binary_normalize 53 1024 1 (-3) false) = "0.12".
Proof. vm_compute. reflexivity. Qed.

Example format_million :
  Float.format_comma_2f (Float.of_Z 1234567) = "1,234,567.00".
Proof. vm_compute. reflexivity. Qed.

Example format_negative_zero : Float.format_comma_2f (S754_zero true) = "-0.00".
Proof. reflexivity. Qed.

Example shape_rejects_ungrouped : Float.money_shape "1234.50" = false.
Proof. vm_compute. reflexivity. Qed.

Example shape_rejects_one_decimal : Float.money_shape "1,234.5" = false.
Proof. vm_compute. reflexivity. Qed.

Example ali_pays_rm50 :
  match (generate_single_pdf DEFAULT_CONFIG ali MENGAJI frozen_world).1 with
  | inr doc => map amount_shown (pdf_pages doc)
  | inl _ => []
  end = [Some "RM50.00"].
Proof. vm_compute. reflexivity. Qed.

(** ** The record store *)

Section StoreFacts.

Variable parse_number : string -> option float.

Lemma fillna_not_nan x : Float.is_nan (fillna Float.zero x) = false.
Proof. unfold fillna. destruct x; reflexivity. Qed.

Lemma fillna_number x : Float.is_nan x = false -> fillna Float.zero x = x.
Proof. unfold fillna. intros ->. reflexivity. Qed.

Lemma to_numeric_unparsable s :
  parse_number s = None ->
  fillna Float.zero (to_numeric parse_number (Some (CStr s))) = Float.zero.
Proof. simpl. intros ->. reflexivity. Qed.

Lemma with_empty_lookup cs : forall r c,
  with_empty cs r !! c = if bool_decide (c ∈ cs) then Some (CStr "") else r !! c.
Proof.
  unfold with_empty.
  induction cs as [|c0 cs IH]; intros r c; simpl; [reflexivity|].
  rewrite IH. destruct (decide (c ∈ cs)) as [Hin|Hnin].
  - rewrite !bool_decide_eq_true_2; [reflexivity| |exact Hin].
    apply elem_of_cons. right. exact Hin.
  - rewrite (bool_decide_eq_false_2 _ Hnin).
    destruct (decide (c0 = c)) as [->|Hne].
    + rewrite lookup_insert_eq, bool_decide_eq_true_2; [reflexivity|].
      apply elem_of_cons. left. reflexivity.
    + rewrite lookup_insert_ne by exact Hne.
      rewrite bool_decide_eq_false_2; [reflexivity|].
      intros H. apply elem_of_cons in H as [H|H]; [congruence|contradiction].
Qed.

Lemma filter_not_in_snoc (cols : list string) c0 (L : list string) :
  c0 ∉ L ->
  filter (fun c => c ∉ cols ++ [c0]) L = filter (fun c => c ∉ cols) L.
Proof.
  induction L as [|c L IH]; intros Hnin; [reflexivity|].
  apply not_elem_of_cons in Hnin as [Hne Hnin].
  destruct (decide (c ∈ cols)) as [Hin|Hout].
  - rewrite !filter_cons_False; [apply IH, Hnin| |].
    + intros H. apply H, Hin.
    + intros H. apply H, elem_of_app. left. exact Hin.
  - rewrite !filter_cons_True; [f_equal; apply IH, Hnin|exact Hout|].
    intros H. apply elem_of_app in H as [H|H]; [contradiction|].
    apply list_elem_of_singleton in H. congruence.
Qed.

Lemma add_missing_fold L : NoDup L -> forall df,
  columns (fold_left add_missing L df)
  = columns df ++ filter (fun c => c ∉ columns df) L /\
  rows (fold_left add_missing L df)
  = map (with_empty (filter (fun c => c ∉ columns df) L)) (rows df).
Proof.
  induction 1 as [|c0 L Hnin Hnd IH]; intros df; simpl.
  - rewrite app_nil_r. split; [reflexivity|].
    unfold with_empty. simpl. rewrite map_id. reflexivity.
  - destruct (IH (add_missing df c0)) as [Hc Hr]. rewrite Hc, Hr.
    unfold add_missing. destruct (decide (c0 ∈ columns df)) as [Hin|Hout].
    + rewrite bool_decide_eq_true_2 by exact Hin.
      rewrite filter_cons_False by (intros H; apply H, Hin).
      split; reflexivity.
    + rewrite bool_decide_eq_false_2 by exact Hout.
      rewrite filter_cons_True by exact Hout.
      unfold setitem_const. rewrite bool_decide_eq_false_2 by exact Hout.
      simpl. rewrite (filter_not_in_snoc _ _ _ Hnin), <- app_assoc, map_map.
      split; reflexivity.
Qed.

Lemma required_cols_nodup : NoDup REQUIRED_COLS.
Proof. compute_done. Qed.

Lemma filter_none (cols L : list string) :
  (forall c, c ∈ L -> c ∈ cols) -> filter (fun c => c ∉ cols) L = [].
Proof.
  induction L as [|c L IH]; intros H; [reflexivity|].
  rewrite filter_cons_False.
  - apply IH. intros c' Hc'. apply H, elem_of_cons. right. exact Hc'.
  - intros Hn. apply Hn, H, elem_of_cons. left. reflexivity.
Qed.

Lemma ensure_columns_eq df w :
  ensure_columns parse_number df w
  = (inr (mk_frame REQUIRED_COLS (map (normalised_row parse_number df) (rows df))), w).
Proof.
  unfold ensure_columns.
  change (fold_left _ REQUIRED_COLS df) with (fold_left add_missing REQUIRED_COLS df).
  destruct (add_missing_fold REQUIRED_COLS required_cols_nodup df) as [Hc Hr].
  set (df1 := fold_left add_missing REQUIRED_COLS df) in *.
  assert (Hall : forall c, c ∈ REQUIRED_COLS -> c ∈ columns df1).
  { intros c Hin. rewrite Hc. apply elem_of_app.
    destruct (decide (c ∈ columns df)); [left; assumption|].
    right. apply list_elem_of_filter. split; assumption. }
  unfold bind at 1. unfold setitem_to_numeric at 1.
  rewrite bool_decide_eq_true_2 by (apply Hall; compute_done).
  unfold ret at 1. unfold bind at 1. unfold setitem_to_numeric at 1. cbn [columns rows].
  rewrite bool_decide_eq_true_2 by (apply Hall; compute_done).
  unfold ret at 1. unfold getitem_cols. cbn [columns rows].
  rewrite (filter_none _ _ Hall). unfold ret. cbn [columns rows].
  rewrite Hr, !map_map. reflexivity.
Qed.

Lemma normalised_row_amount df r c :
  c ∈ amount_columns ->
  normalised_row parse_number df r !! c
  = Some (coerced parse_number (source_value df r c)).
Proof.
  intros Hc.
  assert (Hsrc : with_empty (missing_columns df) r !! c = source_value df r c).
  { rewrite with_empty_lookup. unfold source_value, missing_columns.
    destruct (decide (c ∈ columns df)) as [Hin|Hout].
    - rewrite (bool_decide_eq_true_2 _ Hin), bool_decide_eq_false_2; [reflexivity|].
      intros H. apply list_elem_of_filter in H as [H _]. apply H, Hin.
    - rewrite (bool_decide_eq_false_2 _ Hout), bool_decide_eq_true_2; [reflexivity|].
      apply list_elem_of_filter. split; [exact Hout|].
      unfold amount_columns in Hc.
      apply elem_of_cons in Hc as [->|Hc]; [compute_done|].
      apply elem_of_cons in Hc as [->|Hc]; [compute_done|].
      apply elem_of_nil in Hc. contradiction. }
  unfold normalised_row, amount_columns in *.
  apply elem_of_cons in Hc as [->|Hc];
    [|apply elem_of_cons in Hc as [->|Hc]; [|apply elem_of_nil in Hc; contradiction]].
  - apply map_lookup_filter_Some_2; [|compute_done].
    rewrite lookup_insert_ne by discriminate.
    rewrite lookup_insert_eq, Hsrc. reflexivity.
  - apply map_lookup_filter_Some_2; [|compute_done].
    rewrite lookup_insert_eq, lookup_insert_ne by discriminate.
    rewrite Hsrc. reflexivity.
Qed.

Lemma normalised_numeric df :
  numeric_amounts
    (mk_frame REQUIRED_COLS (map (normalised_row parse_number df) (rows df))).
Proof.
  unfold numeric_amounts. cbn [rows]. apply Forall_fmap, Forall_forall.
  intros r _ c Hc. simpl. rewrite (normalised_row_amount df r c Hc).
  eexists. split; [reflexivity|apply fillna_not_nan].
Qed.

Lemma load_students_cases w :
  load_students parse_number w
  = match files w !! DATA_PATH with
    | Some (CsvFile t) =>
        if bool_decide ("MENGAJI_AMOUNT" ∈ header t) then
          if bool_decide ("SILAT_AMOUNT" ∈ header t) then
            let df := read_csv t in
            let df1 := mk_frame (columns df)
                         (map (fun r => <["MENGAJI_AMOUNT" :=
                                 coerced parse_number (r !! "MENGAJI_AMOUNT")]> r)
                              (rows df)) in
            let df2 := mk_frame (columns df)
                         (map (fun r => <["SILAT_AMOUNT" :=
                                 coerced parse_number (r !! "SILAT_AMOUNT")]> r)
                              (rows df1)) in
            (inr (mk_frame REQUIRED_COLS
                    (map (normalised_row parse_number df2) (rows df2))), w)
          else (inl (KeyError "SILAT_AMOUNT"), w)
        else (inl (KeyError "MENGAJI_AMOUNT"), w)
    | Some (PdfFile _) => (inl ParserError, w)
    | None => (inr (mk_frame REQUIRED_COLS []), w)
    end.
Proof.
  unfold load_students. destruct (files w !! DATA_PATH) as [[d|t]|].
  - reflexivity.
  - cbn [for_each]. unfold bind at 1. unfold bind at 1.
    unfold setitem_to_numeric at 1. cbn [columns rows read_csv].
    destruct (bool_decide ("MENGAJI_AMOUNT" ∈ header t)); [|reflexivity].
    unfold ret at 1. unfold bind at 1. unfold setitem_to_numeric at 1.
    cbn [columns rows].
    destruct (bool_decide ("SILAT_AMOUNT" ∈ header t)); [|reflexivity].
    unfold ret at 1. unfold ret at 1. rewrite ensure_columns_eq. reflexivity.
  - rewrite ensure_columns_eq. reflexivity.
Qed.

End StoreFacts.

(** C4, as stated, fails: a negative amount, read from the file as text
    or typed into the table as a number, is numeric and stays negative. *)
Lemma negative_amount_survives :
  amounts_of (ensure_columns parse_plain roster_negative_text frozen_world).1
  = [(Some (CNum (Float.of_Z (-5))), Some (CNum Float.zero))] /\
  amounts_of (ensure_columns parse_plain roster_negative_float frozen_world).1
  = [(Some (CNum (Float.of_Z (-5))), Some (CNum Float.zero))] /\
  Float.negative (Float.of_Z (-5)) = true.
Proof. vm_compute. repeat split. Qed.

(** C4, amended. After [ensure_columns], and after a [load_students]
    that returns, both amount fields of every record are floats and not
    NaN: an amount that does not parse is coerced to 0, an amount that
    parses keeps its value, whatever its sign.  [ensure_columns] always
    returns; [load_students] returns when there is no roster file and
    when the file has both amount columns. *)
Theorem amounts_numeric_after_normalising parse_number df w :
  (exists df',
     ensure_columns parse_number df w = (inr df', w) /\
     columns df' = REQUIRED_COLS /\
     numeric_amounts df' /\
     Forall2 (fun r r' => forall c, c ∈ amount_columns ->
                r' !! c = Some (coerced parse_number (source_value df r c)))
             (rows df) (rows df')) /\
  (forall s, parse_number s = None ->
             coerced parse_number (Some (CStr s)) = CNum Float.zero) /\
  (forall x, Float.is_nan x = false ->
             coerced parse_number (Some (CNum x)) = CNum x) /\
  (forall df' w', load_students parse_number w = (inr df', w') ->
                  w' = w /\ columns df' = REQUIRED_COLS /\ numeric_amounts df') /\
  (files w !! DATA_PATH = None \/
   (exists t, files w !! DATA_PATH = Some (CsvFile t) /\
              "MENGAJI_AMOUNT" ∈ header t /\ "SILAT_AMOUNT" ∈ header t) ->
   exists df', load_students parse_number w = (inr df', w)).
Proof.
  split; [|split; [|split; [|split]]].
  - eexists. split; [apply ensure_columns_eq|]. split; [reflexivity|].
    split; [apply normalised_numeric|]. cbn [rows].
    apply Forall2_fmap_r, Forall_Forall2_diag, Forall_forall.
    intros r _ c Hc. apply normalised_row_amount, Hc.
  - intros s Hs. unfold coerced. rewrite to_numeric_unparsable by exact Hs.
    reflexivity.
  - intros x Hx. unfold coerced. simpl. rewrite fillna_number by exact Hx.
    reflexivity.
  - intros df' w'. rewrite load_students_cases.
    destruct (files w !! DATA_PATH) as [[d|t]|]; [discriminate| |].
    + destruct (bool_decide _); [|discriminate].
      destruct (bool_decide _); [|discriminate].
      intros [= <- <-]. split; [reflexivity|]. split; [reflexivity|].
      apply normalised_numeric.
    + intros [= <- <-]. split; [reflexivity|]. split; [reflexivity|].
      constructor.
  - rewrite load_students_cases. intros [-> | (t & -> & Hm & Hs)].
    + eexists. reflexivity.
    + rewrite !bool_decide_eq_true_2 by assumption. eexists. reflexivity.
Qed.

(** * Further properties *)

(** ** The record store *)

Lemma required_cases c :
  c ∈ REQUIRED_COLS ->
  c = "NAMA" \/ c = "NO_KP" \/ c = "TINGKATAN" \/ c = "KELAS" \/
  c = "MENGAJI_STATUS" \/ c = "MENGAJI_AMOUNT" \/ c = "MENGAJI_DATE" \/
  c = "SILAT_STATUS" \/ c = "SILAT_AMOUNT" \/ c = "SILAT_DATE".
Proof.
  unfold REQUIRED_COLS. rewrite !elem_of_cons, elem_of_nil. tauto.
Qed.

Lemma amount_cases c :
  c ∈ amount_columns <-> c = "MENGAJI_AMOUNT" \/ c = "SILAT_AMOUNT".
Proof. unfold amount_columns. rewrite !elem_of_cons, elem_of_nil. tauto. Qed.

Lemma amount_required c : c ∈ amount_columns -> c ∈ REQUIRED_COLS.
Proof. rewrite amount_cases. intros [-> | ->]; compute_done. Qed.

Lemma with_empty_source df r c :
  c ∈ REQUIRED_COLS ->
  with_empty (missing_columns df) r !! c = source_value df r c.
Proof.
  intros Hreq. rewrite with_empty_lookup. unfold source_value, missing_columns.
  destruct (decide (c ∈ columns df)) as [Hin|Hout].
  - rewrite (bool_decide_eq_true_2 _ Hin), bool_decide_eq_false_2; [reflexivity|].
    intros H. apply list_elem_of_filter in H as [H _]. apply H, Hin.
  - rewrite (bool_decide_eq_false_2 _ Hout), bool_decide_eq_true_2; [reflexivity|].
    apply list_elem_of_filter. split; assumption.
Qed.

Section StoreMore.

Variable parse_number : string -> option float.

Lemma normalised_row_lookup df r c :
  normalised_row parse_number df r !! c = normalised_value parse_number df r c.
Proof.
  unfold normalised_value.
  destruct (decide (c ∈ REQUIRED_COLS)) as [Hreq|Hnreq].
  - rewrite (bool_decide_eq_true_2 _ Hreq).
    destruct (decide (c ∈ amount_columns)) as [Ham|Hnam].
    + rewrite (bool_decide_eq_true_2 _ Ham). apply normalised_row_amount, Ham.
    + rewrite (bool_decide_eq_false_2 _ Hnam).
      rewrite amount_cases in Hnam. unfold normalised_row.
      rewrite <- (with_empty_source df r c Hreq).
      set (r0 := with_empty (missing_columns df) r).
      destruct (r0 !! c) as [v|] eqn:E.
      * apply map_lookup_filter_Some_2; [|exact Hreq].
        rewrite !lookup_insert_ne by (intros <-; tauto). exact E.
      * apply map_lookup_filter_None_2. left.
        rewrite !lookup_insert_ne by (intros <-; tauto). exact E.
  - rewrite (bool_decide_eq_false_2 _ Hnreq).
    apply map_lookup_filter_None_2. right. intros v _ H. apply Hnreq, H.
Qed.

Lemma coerced_number x :
  Float.is_nan x = false -> coerced parse_number (Some (CNum x)) = CNum x.
Proof. intros H. unfold coerced. simpl. rewrite fillna_number by exact H. reflexivity. Qed.

Lemma normalised_row_typed df r :
  columns df = REQUIRED_COLS -> typed_row r ->
  normalised_row parse_number df r = r.
Proof.
  intros Hcols (Hout & Htext & Hnum). apply map_eq. intros c.
  rewrite normalised_row_lookup. unfold normalised_value, source_value.
  rewrite Hcols.
  destruct (decide (c ∈ REQUIRED_COLS)) as [Hreq|Hnreq].
  - rewrite (bool_decide_eq_true_2 _ Hreq).
    destruct (decide (c ∈ amount_columns)) as [Ham|Hnam].
    + rewrite (bool_decide_eq_true_2 _ Ham).
      destruct (Hnum c Ham) as (x & -> & Hx). rewrite coerced_number by exact Hx.
      reflexivity.
    + rewrite (bool_decide_eq_false_2 _ Hnam). reflexivity.
  - rewrite (bool_decide_eq_false_2 _ Hnreq). symmetry. apply Hout, Hnreq.
Qed.

Lemma normalised_row_is_typed_amounts df r c :
  c ∈ amount_columns ->
  exists x, normalised_row parse_number df r !! c = Some (CNum x) /\
            Float.is_nan x = false.
Proof.
  intros Hc. rewrite (normalised_row_amount parse_number df r c Hc).
  eexists. split; [reflexivity|apply fillna_not_nan].
Qed.

(** X1. [ensure_columns] is idempotent: normalising a normalised frame
    returns it unchanged. *)
Theorem ensure_columns_idempotent df w :
  exists df1,
    ensure_columns parse_number df w = (inr df1, w) /\
    ensure_columns parse_number df1 w = (inr df1, w).
Proof.
  eexists. split; [apply ensure_columns_eq|].
  rewrite ensure_columns_eq. cbn [rows]. rewrite map_map.
  do 3 f_equal. apply map_ext. intros r.
  apply map_eq. intros c. rewrite normalised_row_lookup.
  unfold normalised_value at 1. unfold source_value. cbn [columns].
  destruct (decide (c ∈ REQUIRED_COLS)) as [Hreq|Hnreq].
  - rewrite (bool_decide_eq_true_2 _ Hreq).
    destruct (decide (c ∈ amount_columns)) as [Ham|Hnam].
    + rewrite (bool_decide_eq_true_2 _ Ham).
      destruct (normalised_row_is_typed_amounts df r c Ham) as (x & -> & Hx).
      rewrite coerced_number by exact Hx. reflexivity.
    + rewrite (bool_decide_eq_false_2 _ Hnam). reflexivity.
  - rewrite (bool_decide_eq_false_2 _ Hnreq). symmetry.
    rewrite normalised_row_lookup. unfold normalised_value.
    rewrite (bool_decide_eq_false_2 _ Hnreq). reflexivity.
Qed.

(** X2. [ensure_columns] keeps the row count and order, drops every
    column that is not required, keeps the value of a required text column
    the frame has and puts the empty text in one it lacks. *)
Theorem ensure_columns_text_columns df w :
  exists df',
    ensure_columns parse_number df w = (inr df', w) /\
    Forall2 (fun r r' =>
               (forall c, c ∉ REQUIRED_COLS -> r' !! c = None) /\
               (forall c, c ∈ REQUIRED_COLS -> c ∉ amount_columns ->
                  r' !! c = if bool_decide (c ∈ columns df) then r !! c
                            else Some (CStr "")))
            (rows df) (rows df').
Proof.
  eexists. split; [apply ensure_columns_eq|]. cbn [rows].
  apply Forall2_fmap_r, Forall_Forall2_diag, Forall_forall.
  intros r _. split.
  - intros c Hc. rewrite normalised_row_lookup. unfold normalised_value.
    rewrite (bool_decide_eq_false_2 _ Hc). reflexivity.
  - intros c Hreq Hnam. rewrite normalised_row_lookup. unfold normalised_value.
    rewrite (bool_decide_eq_true_2 _ Hreq), (bool_decide_eq_false_2 _ Hnam).
    reflexivity.
Qed.

(** X3. When the frame lacks an amount column and the empty text is not
    a number for the parser, [ensure_columns] gives every row the amount
    0.0 in that column. *)
Theorem missing_amount_column_is_zero df w c :
  parse_number "" = None ->
  c ∈ amount_columns ->
  c ∉ columns df ->
  exists df',
    ensure_columns parse_number df w = (inr df', w) /\
    length (rows df') = length (rows df) /\
    Forall (fun r' => r' !! c = Some (CNum Float.zero)) (rows df').
Proof.
  intros Hparse Hc Hout. eexists. split; [apply ensure_columns_eq|].
  cbn [rows]. split; [apply length_map|].
  apply Forall_fmap, Forall_forall. intros r _. simpl.
  rewrite (normalised_row_amount parse_number df r c Hc).
  unfold source_value. rewrite (bool_decide_eq_false_2 _ Hout).
  unfold coerced. rewrite to_numeric_unparsable by exact Hparse. reflexivity.
Qed.

End StoreMore.

Lemma missing_amount_column_is_zero_witness :
  exists df',
    ensure_columns parse_plain (read_csv names_only_table) frozen_world
    = (inr df', frozen_world) /\
    length (rows df') = length (rows (read_csv names_only_table)) /\
    Forall (fun r' => r' !! "SILAT_AMOUNT" = Some (CNum Float.zero)) (rows df').
Proof.
  apply (missing_amount_column_is_zero parse_plain (read_csv names_only_table)
           frozen_world "SILAT_AMOUNT").
  - reflexivity.
  - compute_done.
  - compute_done.
Defined.

Section LoadMore.

Variable parse_number : string -> option float.


Lemma read_csv_lookup (rec : gmap string string) c :
  (CStr <$> rec : gmap string value) !! c = CStr <$> rec !! c.
Proof. apply lookup_fmap. Qed.

Lemma loaded_rows w t :
  files w !! DATA_PATH = Some (CsvFile t) ->
  "MENGAJI_AMOUNT" ∈ header t ->
  "SILAT_AMOUNT" ∈ header t ->
  exists df',
    load_students parse_number w = (inr df', w) /\
    columns df' = REQUIRED_COLS /\
    Forall2 (fun (rec : gmap string string) r' =>
               (forall c, c ∉ REQUIRED_COLS -> r' !! c = None) /\
               (forall c, c ∈ amount_columns ->
                  r' !! c = Some (coerced parse_number (CStr <$> rec !! c))) /\
               (forall c, c ∈ REQUIRED_COLS -> c ∉ amount_columns ->
                  r' !! c = if bool_decide (c ∈ header t) then CStr <$> rec !! c
                            else Some (CStr "")))
            (records t) (rows df').
Proof.
  intros Hfile Hm Hs. rewrite load_students_cases, Hfile.
  rewrite (bool_decide_eq_true_2 _ Hm), (bool_decide_eq_true_2 _ Hs).
  eexists. split; [reflexivity|]. split; [reflexivity|].
  cbn [rows columns read_csv]. rewrite !map_map.
  apply Forall2_fmap_r, Forall_Forall2_diag, Forall_forall.
  intros rec _. split; [|split].
  - intros c Hc. rewrite normalised_row_lookup. unfold normalised_value.
    rewrite (bool_decide_eq_false_2 _ Hc). reflexivity.
  - intros c Hc. rewrite normalised_row_lookup. unfold normalised_value.
    rewrite (bool_decide_eq_true_2 _ (amount_required c Hc)),
            (bool_decide_eq_true_2 _ Hc).
    unfold source_value. cbn [columns].
    apply amount_cases in Hc as [-> | ->].
    + rewrite (bool_decide_eq_true_2 _ Hm).
      rewrite lookup_insert_ne by discriminate. rewrite lookup_insert_eq.
      rewrite read_csv_lookup.
      unfold coerced at 1. cbn [to_numeric].
      rewrite fillna_number by apply fillna_not_nan. reflexivity.
    + rewrite (bool_decide_eq_true_2 _ Hs). rewrite lookup_insert_eq.
      rewrite lookup_insert_ne by discriminate. rewrite read_csv_lookup.
      unfold coerced at 1. cbn [to_numeric].
      rewrite fillna_number by apply fillna_not_nan. reflexivity.
  - intros c Hreq Hnam. rewrite normalised_row_lookup. unfold normalised_value.
    rewrite (bool_decide_eq_true_2 _ Hreq), (bool_decide_eq_false_2 _ Hnam).
    unfold source_value. cbn [columns].
    rewrite amount_cases in Hnam.
    destruct (bool_decide (c ∈ header t)); [|reflexivity].
    rewrite !lookup_insert_ne by (intros <-; tauto). apply read_csv_lookup.
Qed.


End LoadMore.


Example load_without_amount_columns_fails :
  (load_students parse_plain names_only_world).1 = inl (KeyError "MENGAJI_AMOUNT").
Proof. vm_compute. reflexivity. Qed.

Lemma list_to_map_lookup_fn (L : list string) (f : string -> string) i :
  (list_to_map (map (fun c => (c, f c)) L) : gmap string string) !! i
  = if bool_decide (i ∈ L) then Some (f i) else None.
Proof.
  induction L as [|c L IH]; [reflexivity|]. simpl.
  destruct (decide (c = i)) as [->|Hne].
  - rewrite lookup_insert_eq, bool_decide_eq_true_2; [reflexivity|].
    apply elem_of_cons. left. reflexivity.
  - rewrite lookup_insert_ne by exact Hne. rewrite IH.
    destruct (decide (i ∈ L)) as [Hin|Hout].
    + rewrite !bool_decide_eq_true_2; [reflexivity| |exact Hin].
      apply elem_of_cons. right. exact Hin.
    + rewrite !bool_decide_eq_false_2; [reflexivity| |exact Hout].
      intros H. apply elem_of_cons in H as [H|H]; [congruence|contradiction].
Qed.

Lemma new_student_typed name ic ting kelas mengaji_amt silat_amt :
  Float.is_nan mengaji_amt = false ->
  Float.is_nan silat_amt = false ->
  typed_row (new_student name ic ting kelas mengaji_amt silat_amt).
Proof.
  intros Hm Hs. split; [|split].
  - intros c Hc. unfold new_student. simpl.
    rewrite !lookup_insert_ne; [apply lookup_empty|..];
      intros <-; apply Hc; compute_done.
  - intros c Hreq Hnam. rewrite amount_cases in Hnam.
    apply required_cases in Hreq.
    destruct Hreq as [-> | [-> | [-> | [-> | [-> | [-> | [-> | [-> | [-> | ->]]]]]]]]];
      try (exfalso; tauto); eexists; reflexivity.
  - intros c Hc. apply amount_cases in Hc as [-> | ->];
      eexists; (split; [reflexivity|assumption]).
Qed.

Lemma ali_roster_typed : typed_roster ali_roster.
Proof.
  split; [reflexivity|]. constructor; [|constructor].
  apply new_student_typed; reflexivity.
Qed.

Section SaveLoad.

Variable parse_number : string -> option float.
Variable show_number : float -> string.

Lemma saved_file df w :
  files (with_roster (to_csv show_number df) w) !! DATA_PATH
  = Some (CsvFile (to_csv show_number df)).
Proof. apply lookup_insert_eq. Qed.

(** X6. Saving a typed roster and loading it again returns the same
    roster, provided the parser reads back every amount of the roster from
    the text written for it. *)
Theorem save_load_round_trip df w :
  typed_roster df ->
  Forall (fun r => forall c x, c ∈ amount_columns -> r !! c = Some (CNum x) ->
                   parse_number (show_number x) = Some x) (rows df) ->
  (save_students show_number df ;; load_students parse_number) w
  = (inr df, with_roster (to_csv show_number df) w).
Proof.
  intros [Hcols Htyped] Hshow. unfold bind, save_students.
  change (mk_world (clock w) (ticks w)
            (<[DATA_PATH:=CsvFile (to_csv show_number df)]> (files w)) (screen w))
    with (with_roster (to_csv show_number df) w).
  set (w1 := with_roster (to_csv show_number df) w).
  destruct (loaded_rows parse_number w1 (to_csv show_number df))
    as (df' & Hload & Hc' & Hrows).
  { apply saved_file. }
  { cbn [header to_csv]. rewrite Hcols. compute_done. }
  { cbn [header to_csv]. rewrite Hcols. compute_done. }
  rewrite Hload. f_equal. f_equal.
  destruct df as [cols rws], df' as [cols' rws']. cbn [columns rows] in *.
  subst cols cols'. f_equal.
  cbn [records header to_csv columns rows] in Hrows.
  apply Forall2_fmap_l in Hrows.
  clear Hload w1. revert Htyped Hshow.
  induction Hrows as [|r r' rws rws' Hr Hrest IH]; intros Htyped Hshow;
    [reflexivity|].
  apply Forall_cons in Htyped as [(Hout & Htext & Hnum) Htyped].
  apply Forall_cons in Hshow as [Hsh Hshow].
  f_equal; [|apply IH; assumption].
  destruct Hr as (Hout' & Hnum' & Htext'). apply map_eq. intros c.
  destruct (decide (c ∈ REQUIRED_COLS)) as [Hreq|Hnreq].
  - destruct (decide (c ∈ amount_columns)) as [Ham|Hnam].
    + rewrite (Hnum' c Ham). destruct (Hnum c Ham) as (x & Hx & Hnan).
      rewrite (list_to_map_lookup_fn REQUIRED_COLS
                 (fun c => to_csv_field show_number (r !! c))).
      rewrite (bool_decide_eq_true_2 _ Hreq), Hx.
      unfold coerced. cbn [fmap option_fmap option_map to_csv_field to_numeric].
      rewrite Hnan, (Hsh c x Ham Hx). cbn [default].
      rewrite fillna_number by exact Hnan. reflexivity.
    + rewrite (Htext' c Hreq Hnam), (bool_decide_eq_true_2 _ Hreq).
      destruct (Htext c Hreq Hnam) as (s & Hs).
      rewrite (list_to_map_lookup_fn REQUIRED_COLS
                 (fun c => to_csv_field show_number (r !! c))).
      rewrite (bool_decide_eq_true_2 _ Hreq), Hs. reflexivity.
  - rewrite (Hout' c Hnreq), (Hout c Hnreq). reflexivity.
Qed.

(** X7. Whatever frame goes through [ensure_columns] and
    [save_students], as every save of the data tab does, the next
    [load_students] returns: it raises nothing and gives the required
    columns, as many rows as were saved and numeric amounts. *)
Theorem saved_roster_loads df w :
  exists w1,
    (df1 <- ensure_columns parse_number df ;; save_students show_number df1) w
    = (inr tt, w1) /\
    exists df2,
      load_students parse_number w1 = (inr df2, w1) /\
      columns df2 = REQUIRED_COLS /\
      length (rows df2) = length (rows df) /\
      numeric_amounts df2.
Proof.
  eexists. split.
  { unfold bind. rewrite ensure_columns_eq. reflexivity. }
  set (df1 := mk_frame REQUIRED_COLS (map (normalised_row parse_number df) (rows df))).
  change (mk_world (clock w) (ticks w)
            (<[DATA_PATH:=CsvFile (to_csv show_number df1)]> (files w)) (screen w))
    with (with_roster (to_csv show_number df1) w).
  set (w1 := with_roster (to_csv show_number df1) w).
  destruct (loaded_rows parse_number w1 (to_csv show_number df1))
    as (df2 & Hload & Hc2 & Hrows).
  { apply saved_file. }
  { compute_done. }
  { compute_done. }
  exists df2. split; [exact Hload|]. split; [exact Hc2|]. split.
  - apply Forall2_length in Hrows. rewrite <- Hrows.
    cbn [records to_csv rows df1]. rewrite !length_map. reflexivity.
  - unfold numeric_amounts. clear Hload.
    induction Hrows as [|rec r' recs rws' Hr Hrest IH]; constructor; [|exact IH].
    intros c Hc. destruct Hr as (_ & Hnum & _). rewrite (Hnum c Hc).
    eexists. split; [reflexivity|apply fillna_not_nan].
Qed.

(** X8. Adding a student to a typed roster, as the form "Tambah Pelajar
    Baharu" does, keeps every row as it is and puts one row last: the
    typed name, identity number, form and class, both statuses "Belum
    Bayar", both dates blank and the two amounts typed.  The result is a
    typed roster again. *)
Theorem add_student_appends_row df name ic ting kelas mengaji_amt silat_amt w :
  typed_roster df ->
  Float.is_nan mengaji_amt = false ->
  Float.is_nan silat_amt = false ->
  let new := new_student name ic ting kelas mengaji_amt silat_amt in
  exists df',
    ensure_columns parse_number (concat_row df REQUIRED_COLS new) w = (inr df', w) /\
    rows df' = rows df ++ [new] /\
    typed_roster df' /\
    new !! "NAMA" = Some (CStr name) /\
    new !! "MENGAJI_STATUS" = Some (CStr "Belum Bayar") /\
    new !! "SILAT_STATUS" = Some (CStr "Belum Bayar") /\
    new !! "MENGAJI_DATE" = Some (CStr "") /\
    new !! "SILAT_DATE" = Some (CStr "").
Proof.
  intros [Hcols Htyped] Hm Hs new.
  assert (Hnew : typed_row new) by (apply new_student_typed; assumption).
  assert (Hcc : columns (concat_row df REQUIRED_COLS new) = REQUIRED_COLS).
  { unfold concat_row. cbn [columns]. rewrite Hcols.
    rewrite (filter_none REQUIRED_COLS REQUIRED_COLS) by auto.
    apply app_nil_r. }
  eexists. split; [apply ensure_columns_eq|]. cbn [rows concat_row].
  assert (Hrows : map (normalised_row parse_number (concat_row df REQUIRED_COLS new))
                      (rows df ++ [new]) = rows df ++ [new]).
  { rewrite <- (map_id (rows df ++ [new])) at 2. apply map_ext_in.
    intros r Hr. apply normalised_row_typed; [exact Hcc|].
    apply in_app_or in Hr as [Hr|[<-|[]]]; [|exact Hnew].
    rewrite Forall_forall in Htyped. apply Htyped, list_elem_of_In, Hr. }
  rewrite Hrows. split; [reflexivity|]. split.
  - split; [reflexivity|]. cbn [rows]. apply Forall_app. split; [exact Htyped|].
    constructor; [exact Hnew|constructor].
  - repeat split.
Qed.

End SaveLoad.


Lemma save_load_round_trip_witness :
  (save_students show_sample ali_roster ;; load_students parse_plain) frozen_world
  = (inr ali_roster, with_roster (to_csv show_sample ali_roster) frozen_world).
Proof.
  apply (save_load_round_trip parse_plain show_sample ali_roster frozen_world).
  - exact ali_roster_typed.
  - constructor; [|constructor]. intros c x Hc Hx.
    apply amount_cases in Hc as [-> | ->];
      vm_compute in Hx; injection Hx as <-; vm_compute; reflexivity.
Defined.

Lemma add_student_appends_row_witness :
  let new := new_student "Siti Aminah" "020202-02-0202" "5" "Dinamik"
               (Float.of_Z 50) Float.zero in
  exists df',
    ensure_columns parse_plain (concat_row ali_roster REQUIRED_COLS new)
      frozen_world = (inr df', frozen_world) /\
    rows df' = rows ali_roster ++ [new] /\
    typed_roster df' /\
    new !! "NAMA" = Some (CStr "Siti Aminah") /\
    new !! "MENGAJI_STATUS" = Some (CStr "Belum Bayar") /\
    new !! "SILAT_STATUS" = Some (CStr "Belum Bayar") /\
    new !! "MENGAJI_DATE" = Some (CStr "") /\
    new !! "SILAT_DATE" = Some (CStr "").
Proof.
  apply (add_student_appends_row parse_plain ali_roster "Siti Aminah"
           "020202-02-0202" "5" "Dinamik" (Float.of_Z 50) Float.zero frozen_world).
  - exact ali_roster_typed.
  - reflexivity.
  - reflexivity.
Defined.

(** ** The renderer and the combined batch *)

Lemma fee_label_cases cfg fee w :
  fee_label cfg fee w
  = match ui_labels cfg with
    | None => (inl (KeyError "ui_labels"), w)
    | Some labels =>
        match label_entry fee labels with
        | None => (inl (KeyError (label_key fee)), w)
        | Some label => (inr label, w)
        end
    end.
Proof.
  unfold fee_label, label_entry, label_key.
  destruct fee, (ui_labels cfg) as [[[m|] [s|]]|]; reflexivity.
Qed.




(** X11. For one prefix, [next_receipt_no] returns the same number in two
    worlds exactly when their current clock reads are the same second; a
    call takes one clock read and touches nothing else. *)
Theorem next_receipt_no_same_second prefix w1 w2 :
  valid_datetime (clock w1 (ticks w1)) ->
  valid_datetime (clock w2 (ticks w2)) ->
  ((next_receipt_no prefix w1).1 = (next_receipt_no prefix w2).1 <->
   clock w1 (ticks w1) = clock w2 (ticks w2)) /\
  (next_receipt_no prefix w1).2 = advance 1 w1.
Proof.
  intros V1 V2. split; [|reflexivity].
  unfold next_receipt_no, bind, now, ret. simpl. split.
  - intros H. injection H as H.
    apply append_inv_head, append_inv_head in H.
    apply strftime_Ymd_HMS_inj; assumption.
  - intros ->. reflexivity.
Qed.

Lemma next_receipt_no_same_second_witness :
  ((next_receipt_no "DN" ticking_world).1 = (next_receipt_no "DN" frozen_world).1 <->
   clock ticking_world (ticks ticking_world) = clock frozen_world (ticks frozen_world)) /\
  (next_receipt_no "DN" ticking_world).2 = advance 1 ticking_world.
Proof.
  apply (next_receipt_no_same_second "DN" ticking_world frozen_world);
    unfold valid_datetime; simpl; lia.
Defined.



Lemma batch_world_eq fee l : forall w,
  batch_world fee l w = advance (batch_reads fee l) w.
Proof.
  unfold batch_reads.
  induction l as [|s l IH]; intros w; simpl; [destruct w; reflexivity|].
  rewrite IH. unfold advance. simpl. f_equal. lia.
Qed.






(** ** The handlers of the receipt tab *)

Lemma fee_label_value cfg fee w e :
  (fee_label cfg fee w).1 = inl e -> fee_label cfg fee w = (inl e, w).
Proof. intros H. rewrite (fee_label_pure cfg fee w w), H. reflexivity. Qed.

Lemma generate_bulk_one_pdf_err cfg l fee e w :
  (fee_label cfg fee w).1 = inl e ->
  generate_bulk_one_pdf cfg l fee w = (inl e, w).
Proof.
  intros He. unfold generate_bulk_one_pdf. unfold bind at 1. simpl.
  unfold bind at 1. rewrite (fee_label_value _ _ _ _ He). reflexivity.
Qed.

Lemma jana_bulk_one_pdf_eq cfg fee label l w :
  l <> [] ->
  fee_label cfg fee w = (inr label, w) ->
  let doc := PDF "A4" (batch_pages cfg label fee l w) in
  let w1 := batch_world fee l w in
  let fname := "bulk_" +:+ Str.lower (fee_key_str fee) +:+ "_" +:+
               minute_stamp w (ticks w1) +:+ ".pdf" in
  jana_bulk_one_pdf cfg l fee w
  = (inr tt,
     with_widgets
       [st_download_button "Muat Turun PDF (Semua)" (PdfData doc) fname
          "application/pdf";
        st_info "Setiap pelajar pada halaman berasingan dalam fail ini."]
       (with_receipt fname doc (advance 1 w1))).
Proof.
  intros Hne Hl doc w1 fname. destruct l as [|s l]; [congruence|].
  assert (Hc : clock w1 = clock w) by apply (batch_world_clock fee (s :: l)).
  unfold jana_bulk_one_pdf. unfold bind at 1.
  rewrite (generate_bulk_one_pdf_eq cfg fee label (s :: l) w Hne Hl).
  fold w1. fold doc. subst fname. unfold minute_stamp. rewrite <- Hc.
  clearbody w1 doc.
  unfold bind, now, write_file, st, with_widgets, with_receipt, advance.
  simpl. rewrite <- app_assoc. reflexivity.
Qed.



Example bulk_file_name :
  dom (files (jana_bulk_one_pdf DEFAULT_CONFIG [ali; siti] MENGAJI frozen_world).2)
  = ({[ "receipts/bulk_mengaji_20250102_0304.pdf" ]} : gset string).
Proof. vm_compute. reflexivity. Qed.

Lemma jana_individu_eq cfg fee label row rest w :
  fee_label cfg fee w = (inr label, w) ->
  let doc := PDF "A4" [single_page cfg label fee row w] in
  let fname := receipt_fname fee row in
  jana_individu cfg (row :: rest) fee w
  = (inr tt,
     with_widgets
       [st_download_button "Muat Turun PDF" (PdfData doc) fname "application/pdf";
        st_info "Muat turun dan gunakan Share → Print (iPad)."]
       (with_receipt fname doc (advance (clock_reads fee row) w))).
Proof.
  intros Hl doc fname. unfold jana_individu. unfold bind at 1.
  rewrite (generate_single_pdf_eq cfg row fee label w Hl).
  unfold bind, write_file, st, with_widgets, with_receipt, advance. simpl.
  rewrite <- app_assoc. reflexivity.
Qed.



(** X16. When the label of the category is absent, each of the three
    receipt handlers, on a non-empty selection, raises the [KeyError] of
    the label lookup and leaves the world as it was: no clock read, no
    file, nothing on the page. *)
Theorem handlers_fail_before_any_effect cfg fee e row rest w :
  (fee_label cfg fee w).1 = inl e ->
  jana_individu cfg (row :: rest) fee w = (inl e, w) /\
  jana_bulk_one_pdf cfg (row :: rest) fee w = (inl e, w) /\
  jana_bulk_zip cfg (row :: rest) fee w = (inl e, w).
Proof.
  intros He. split; [|split].
  - unfold jana_individu. unfold bind at 1.
    rewrite (generate_single_pdf_err cfg row fee e w He). reflexivity.
  - unfold jana_bulk_one_pdf. unfold bind at 1.
    rewrite (generate_bulk_one_pdf_err cfg (row :: rest) fee e w He). reflexivity.
  - unfold jana_bulk_zip. unfold bind at 1. simpl. unfold bind at 1.
    unfold zip_loop_body at 1. unfold bind at 1.
    rewrite (generate_single_pdf_err cfg row fee e w He). reflexivity.
Qed.

Lemma handlers_fail_before_any_effect_witness :
  jana_individu cfg_no_labels (ali :: [siti]) MENGAJI frozen_world
  = (inl (KeyError "mengaji"), frozen_world) /\
  jana_bulk_one_pdf cfg_no_labels (ali :: [siti]) MENGAJI frozen_world
  = (inl (KeyError "mengaji"), frozen_world) /\
  jana_bulk_zip cfg_no_labels (ali :: [siti]) MENGAJI frozen_world
  = (inl (KeyError "mengaji"), frozen_world).
Proof.
  apply (handlers_fail_before_any_effect cfg_no_labels MENGAJI
           (KeyError "mengaji") ali [siti] frozen_world).
  reflexivity.
Defined.

Lemma under_receipts_path fname :
  under_receipts (path_join RECEIPTS_DIR fname) = true.
Proof. destruct fname; reflexivity. Qed.

Lemma written_elsewhere es : forall fs path,
  under_receipts path = false -> written es fs !! path = fs !! path.
Proof.
  unfold written.
  induction es as [|[n d] es IH]; intros fs path Hp; [reflexivity|].
  simpl. rewrite IH by exact Hp. apply lookup_insert_ne.
  intros <-. rewrite under_receipts_path in Hp. discriminate.
Qed.

Lemma with_receipt_elsewhere fname doc w path :
  under_receipts path = false ->
  files (with_receipt fname doc w) !! path = files w !! path.
Proof.
  intros Hp. unfold with_receipt. simpl. apply lookup_insert_ne.
  intros <-. rewrite under_receipts_path in Hp. discriminate.
Qed.

Lemma handlers_files_elsewhere cfg subset fee w path :
  under_receipts path = false ->
  files (jana_individu cfg subset fee w).2 !! path = files w !! path /\
  files (jana_bulk_one_pdf cfg subset fee w).2 !! path = files w !! path /\
  files (jana_bulk_zip cfg subset fee w).2 !! path = files w !! path.
Proof.
  intros Hp. destruct subset as [|row rest]; [repeat split|].
  destruct (fee_label cfg fee w).1 as [e|label] eqn:E.
  - destruct (handlers_fail_before_any_effect cfg fee e row rest w E)
      as (-> & -> & ->).
    repeat split.
  - assert (Hl : fee_label cfg fee w = (inr label, w))
      by (rewrite (fee_label_pure _ _ w w), E; reflexivity).
    rewrite (jana_individu_eq cfg fee label row rest w Hl).
    rewrite (jana_bulk_one_pdf_eq cfg fee label (row :: rest) w ltac:(discriminate) Hl).
    rewrite (jana_bulk_zip_eq cfg fee label (row :: rest) w ltac:(discriminate) Hl).
    split; [|split].
    + cbn [snd with_widgets files].
      rewrite (with_receipt_elsewhere _ _ _ _ Hp). reflexivity.
    + cbn [snd with_widgets files].
      rewrite (with_receipt_elsewhere _ _ _ _ Hp).
      rewrite batch_world_eq. reflexivity.
    + cbn [snd files]. apply written_elsewhere, Hp.
Qed.

(** X17. The three receipt handlers write under the receipts directory
    only: whatever the selection and the outcome, every other path holds
    what it held before, the roster file among them. *)
Theorem receipt_handlers_write_under_receipts_only cfg subset fee w :
  (forall path, under_receipts path = false ->
     files (jana_individu cfg subset fee w).2 !! path = files w !! path /\
     files (jana_bulk_one_pdf cfg subset fee w).2 !! path = files w !! path /\
     files (jana_bulk_zip cfg subset fee w).2 !! path = files w !! path) /\
  files (jana_individu cfg subset fee w).2 !! DATA_PATH = files w !! DATA_PATH /\
  files (jana_bulk_one_pdf cfg subset fee w).2 !! DATA_PATH = files w !! DATA_PATH /\
  files (jana_bulk_zip cfg subset fee w).2 !! DATA_PATH = files w !! DATA_PATH.
Proof.
  split; [intros path Hp; apply handlers_files_elsewhere, Hp|].
  apply handlers_files_elsewhere. reflexivity.
Qed.

(** ** File names *)

(** X18. Two receipts get the same file name exactly when they are for
    the same category and the names of the two records agree once spaces
    are replaced by underscores; receipts of the two categories never
    share a name. *)
Theorem receipt_names_collide_exactly fee1 fee2 a b :
  receipt_fname fee1 a = receipt_fname fee2 b <->
  fee1 = fee2 /\ Str.replace " " "_" (NAMA a) = Str.replace " " "_" (NAMA b).
Proof.
  split.
  - intros H. destruct fee1, fee2; try discriminate H; split; try reflexivity;
      unfold receipt_fname in H;
      apply append_inv_head, append_inv_head, append_inv_head in H;
      apply append_inv_tail in H; exact H.
  - intros [-> H]. unfold receipt_fname. rewrite H. reflexivity.
Qed.

Lemma replace_no_space s :
  ~ In " "%char (list_ascii_of_string (Str.replace " " "_" s)).
Proof.
  induction s as [|c s IH]; simpl; [tauto|].
  intros [H|H]; [|exact (IH H)].
  destruct (Ascii.eqb_spec c " ") as [->|Hne]; [discriminate|congruence].
Qed.

Lemma replace_idempotent s :
  Str.replace " " "_" (Str.replace " " "_" s) = Str.replace " " "_" s.
Proof.
  induction s as [|c s IH]; simpl; [reflexivity|]. rewrite IH. f_equal.
  destruct (Ascii.eqb_spec c " ") as [->|Hne]; [reflexivity|].
  destruct (Ascii.eqb_spec c " "); [contradiction|reflexivity].
Qed.

(** X19. The file name of a receipt contains no space, and a record whose
    name is written with underscores gets the file name of the record
    whose name is the same text written with spaces. *)
Theorem receipt_name_without_spaces fee a b :
  ~ In " "%char (list_ascii_of_string (receipt_fname fee a)) /\
  (NAMA b = Str.replace " " "_" (NAMA a) ->
   receipt_fname fee b = receipt_fname fee a).
Proof.
  split.
  - unfold receipt_fname. rewrite !list_ascii_of_string_app, !in_app_iff.
    intros [H|[H|[H|[H|H]]]].
    + simpl in H. intuition discriminate.
    + destruct fee; simpl in H; intuition discriminate.
    + simpl in H. intuition discriminate.
    + exact (replace_no_space _ H).
    + simpl in H. intuition discriminate.
  - intros Hb. unfold receipt_fname. rewrite Hb, replace_idempotent. reflexivity.
Qed.

Example underscore_name_collides :
  receipt_fname MENGAJI
    (mk_student "Ali_bin_Ahmad" "" "" "" "" Float.zero "" "" Float.zero "")
  = receipt_fname MENGAJI ali.
Proof. reflexivity. Qed.

(** ** The choice of the category *)

(** X20. With both labels configured, picking the first option of the
    category box gives MENGAJI; picking the second gives SILAT when the
    two labels are different texts and MENGAJI when they are the same
    text, so that no SILAT receipt can then be asked for.  With different
    labels the category found has the label that was picked. *)
Theorem fee_key_of_choice cfg m s w :
  ui_labels cfg = Some (mk_labels (Some m) (Some s)) ->
  select_fee_key cfg first_option w = (inr MENGAJI, w) /\
  (s <> m -> select_fee_key cfg second_option w = (inr SILAT, w)) /\
  (s = m -> select_fee_key cfg second_option w = (inr MENGAJI, w)) /\
  (s <> m ->
   forall pick, exists k,
     select_fee_key cfg pick w = (inr k, w) /\
     fee_label cfg k w
     = (inr (match pick with first_option => m | second_option => s end), w)).
Proof.
  intros Hcfg.
  assert (H1 : select_fee_key cfg first_option w = (inr MENGAJI, w)).
  { unfold select_fee_key, bind. rewrite Hcfg. simpl.
    rewrite String.eqb_refl. reflexivity. }
  assert (H2 : select_fee_key cfg second_option w
               = (inr (if String.eqb s m then MENGAJI else SILAT), w)).
  { unfold select_fee_key, bind. rewrite Hcfg. reflexivity. }
  split; [exact H1|]. split; [|split].
  - intros Hne. rewrite H2. apply String.eqb_neq in Hne. rewrite Hne. reflexivity.
  - intros ->. rewrite H2, String.eqb_refl. reflexivity.
  - intros Hne [|].
    + exists MENGAJI. split; [exact H1|].
      rewrite fee_label_cases, Hcfg. reflexivity.
    + exists SILAT. split.
      * rewrite H2. apply String.eqb_neq in Hne. rewrite Hne. reflexivity.
      * rewrite fee_label_cases, Hcfg. reflexivity.
Qed.

Lemma fee_key_of_choice_witness :
  select_fee_key cfg_same_labels first_option frozen_world
  = (inr MENGAJI, frozen_world) /\
  ("Yuran" <> "Yuran" ->
   select_fee_key cfg_same_labels second_option frozen_world
   = (inr SILAT, frozen_world)) /\
  ("Yuran" = "Yuran" ->
   select_fee_key cfg_same_labels second_option frozen_world
   = (inr MENGAJI, frozen_world)) /\
  ("Yuran" <> "Yuran" ->
   forall pick, exists k,
     select_fee_key cfg_same_labels pick frozen_world = (inr k, frozen_world) /\
     fee_label cfg_same_labels k frozen_world
     = (inr (match pick with first_option => "Yuran" | second_option => "Yuran" end),
        frozen_world)).
Proof.
  apply (fee_key_of_choice cfg_same_labels "Yuran" "Yuran" frozen_world).
  reflexivity.
Defined.

(** ** The settings form *)

Lemma settings_form_eq cfg labels typed w :
  ui_labels cfg = Some labels ->
  settings_form cfg typed w
  = (inr (mk_config
            (Some (text_input (typed_app_title typed)
                     (get (app_title cfg) DEFAULT_app_title)))
            (Some (text_input (typed_branding_text typed)
                     (get (branding_text cfg) DEFAULT_branding_text)))
            (Some (text_input (typed_currency typed) (get (currency cfg) "RM")))
            (Some (text_input (typed_receipt_footer typed)
                     (get (receipt_footer cfg) DEFAULT_receipt_footer)))
            (receipt_prefix cfg)
            (Some (mk_labels
                     (Some (text_input (typed_mengaji typed)
                              (get (mengaji labels) "Yuran Mengaji")))
                     (Some (text_input (typed_silat typed)
                              (get (silat labels) "Yuran Silat")))))), w).
Proof. intros H. unfold settings_form, bind. simpl. rewrite H. reflexivity. Qed.


(** X22. Leaving every field of the settings form as it is changes no
    receipt: for a category whose label is configured, the document the
    form returns renders every record exactly as the stored one does. *)
Theorem untouched_settings_keep_receipts cfg labels fee label s w w' :
  ui_labels cfg = Some labels ->
  label_entry fee labels = Some label ->
  exists cfg',
    settings_form cfg nothing_typed w = (inr cfg', w) /\
    generate_single_pdf cfg' s fee w' = generate_single_pdf cfg s fee w'.
Proof.
  intros Hl He. eexists. split; [apply (settings_form_eq cfg labels _ w Hl)|].
  rewrite (generate_single_pdf_eq cfg s fee label w')
    by (rewrite fee_label_cases, Hl, He; reflexivity).
  erewrite generate_single_pdf_eq.
  - unfold single_page, receipt_page, receipt_no_at. simpl.
    destruct (branding_text cfg), (currency cfg), (receipt_footer cfg);
      reflexivity.
  - rewrite fee_label_cases. simpl.
    destruct fee; simpl in *; rewrite He; reflexivity.
Qed.

Lemma untouched_settings_keep_receipts_witness :
  exists cfg',
    settings_form cfg_same_labels nothing_typed frozen_world
    = (inr cfg', frozen_world) /\
    generate_single_pdf cfg' ali MENGAJI ticking_world
    = generate_single_pdf cfg_same_labels ali MENGAJI ticking_world.
Proof.
  apply (untouched_settings_keep_receipts cfg_same_labels
           (mk_labels (Some "Yuran") (Some "Yuran")) MENGAJI "Yuran" ali
           frozen_world ticking_world); reflexivity.
Defined.
